(** * alpha-lens data layer: the Polygon feed's rate-limited, retrying
      HTTP client and the unified data manager's pickle-file cache.

    Shallow embedding of
      - [alphalens/data/polygon_feed.py]
          ([PolygonDataFeed.__init__], [_enforce_rate_limit], [_make_request]);
      - [alphalens/data/unified_data_manager.py]
          ([__init__], [get_historical_data], [get_latest_prices],
           [get_options_chain], [_save_to_cache], [_load_from_cache],
           [get_cache_stats], [clear_cache]).

    Conventions.
      - [time.time()] is a clock reading in integer milliseconds, and
        [datetime.now()] one in integer microseconds (the resolution of
        [timedelta]); float rounding is not modelled, ages in hours are
        exact rationals.
      - The code is single-threaded and so is the model.
      - The cache directory holds regular files only and cache keys contain
        no path separator, so that [os.path.join(cache_dir, key + ".pkl")]
        names a file directly inside the directory. *)

From Stdlib Require Import ZArith QArith Lia DecimalString.
From stdpp Require Import gmap strings list sorting.

Local Open Scope string_scope.
Local Open Scope list_scope.
Local Open Scope Z_scope.

(* ===================================================================== *)
(** ** Results of calls that may raise                                    *)
(* ===================================================================== *)

Inductive exn : Type :=
| RuntimeError (msg : string)
| ValueError (msg : string)
| KeyError (key : string)
| AttributeError (msg : string)
| UpstreamError (msg : string).   (* anything a feed's SDK may raise *)

Inductive result (A : Type) : Type :=
| Return (a : A)
| Raise (e : exn).
Arguments Return {A} a.
Arguments Raise {A} e.

Definition is_raise {A} (r : result A) : bool :=
  match r with Raise _ => true | Return _ => false end.

(* ===================================================================== *)
(** ** polygon_feed.py                                                    *)
(* ===================================================================== *)

Module PolygonDataFeed.

(** What [session.get(url, params=params, timeout=10)] does: it raises
    (timeout, connection error), or it returns a response with a status code
    and a body; [json = None] is a body on which [response.json()] raises. *)
Inductive outcome : Type :=
| TransportError
| Response (status_code : Z) (json : option string).

Record reply : Type := {
  reply_outcome : outcome;
  reply_latency : nat        (* milliseconds spent inside session.get *)
}.

(** The remote end as the feed sees it through [self.session]: the reply to
    the [n]-th HTTP call of the session, given its URL and parameters. *)
Definition http_session : Type := nat → string → gmap string string → reply.

(** Observable steps of a request, oldest first. *)
Inductive event : Type :=
| EvAdmit                  (* one pass through _enforce_rate_limit *)
| EvGet                    (* one session.get *)
| EvSleep (ms : Z).        (* one time.sleep *)

Global Instance event_eq_dec : EqDecision event.
Proof. solve_decision. Defined.

Record feed : Type := {
  api_key : string;
  tier : string;
  calls_per_minute : Z;
  call_timestamps : list Z;   (* readings of time.time(), milliseconds *)
  session : http_session;
  sent : nat;                 (* HTTP calls issued so far on the session *)
  clock : Z;                  (* time.time(), milliseconds *)
  trace : list event          (* ghost: what the feed did, oldest first *)
}.

(** [self.rate_limits] *)
Definition rate_limits : gmap string Z :=
  <["free" := 5]> (<["starter" := 100]> (<["developer" := 1000]>
    (<["advanced" := 10000]> ∅))).

(** [__init__]: [self.calls_per_minute = self.rate_limits.get(tier, 5)] and
    an empty list of call timestamps. *)
Definition __init__ (key tier_ : string) (sess : http_session) (t0 : Z) : feed :=
  {| api_key := key;
     tier := tier_;
     calls_per_minute := default 5 (rate_limits !! tier_);
     call_timestamps := [];
     session := sess;
     sent := 0%nat;
     clock := t0;
     trace := [] |}.

(** *** A state-and-exception monad over the feed *)

Definition M (A : Type) : Type := feed → result A * feed.

Definition ret {A} (a : A) : M A := λ s, (Return a, s).
Definition raise {A} (e : exn) : M A := λ s, (Raise e, s).
Definition bind {A B} (m : M A) (k : A → M B) : M B :=
  λ s, match m s with
       | (Return a, s') => k a s'
       | (Raise e, s') => (Raise e, s')
       end.

Notation "'let*' x ':=' m 'in' k" := (bind m (λ x, k))
  (at level 10, x name, m at level 100, k at level 200).
Notation "'exec' m 'in' k" := (bind m (λ _, k))
  (at level 10, m at level 100, k at level 200).

Definition emit (e : event) (s : feed) : feed :=
  {| api_key := api_key s; tier := tier s;
     calls_per_minute := calls_per_minute s;
     call_timestamps := call_timestamps s;
     session := session s; sent := sent s; clock := clock s;
     trace := trace s ++ [e] |}.

(** [time.time()] *)
Definition time_time : M Z := λ s, (Return (clock s), s).

(** [time.sleep(ms)] *)
Definition time_sleep (ms : Z) : M unit := λ s,
  (Return tt,
   emit (EvSleep ms)
     {| api_key := api_key s; tier := tier s;
        calls_per_minute := calls_per_minute s;
        call_timestamps := call_timestamps s;
        session := session s; sent := sent s; clock := clock s + ms;
        trace := trace s |}).

Definition set_call_timestamps (ts : list Z) : M unit := λ s,
  (Return tt,
   {| api_key := api_key s; tier := tier s;
      calls_per_minute := calls_per_minute s;
      call_timestamps := ts;
      session := session s; sent := sent s; clock := clock s;
      trace := trace s |}).

Definition get_call_timestamps : M (list Z) := λ s, (Return (call_timestamps s), s).
Definition get_calls_per_minute : M Z := λ s, (Return (calls_per_minute s), s).
Definition get_api_key : M string := λ s, (Return (api_key s), s).

(** [self.session.get(url, params=params, timeout=10)]: the call takes its
    latency and yields the session's reply. *)
Definition session_get (url : string) (params : gmap string string) : M outcome := λ s,
  let r := session s (sent s) url params in
  (Return (reply_outcome r),
   emit EvGet
     {| api_key := api_key s; tier := tier s;
        calls_per_minute := calls_per_minute s;
        call_timestamps := call_timestamps s;
        session := session s; sent := S (sent s);
        clock := clock s + Z.of_nat (reply_latency r);
        trace := trace s |}).

(** [min(xs)]; Python raises ValueError on an empty list. *)
Definition list_min (xs : list Z) : option Z :=
  match xs with
  | [] => None
  | x :: xs' => Some (foldr Z.min x xs')
  end.

(** [_enforce_rate_limit] *)
Definition _enforce_rate_limit : M unit :=
  exec (λ s, (Return tt, emit EvAdmit s)) in
  let* now := time_time in
  let* old := get_call_timestamps in
  (* Remove timestamps older than 1 minute *)
  exec set_call_timestamps (filter (λ ts, now - ts < 60000) old) in
  let* kept := get_call_timestamps in
  let* limit := get_calls_per_minute in
  (* Check if we've exceeded limit *)
  if bool_decide (limit ≤ Z.of_nat (length kept)) then
    match list_min kept with
    | None => raise (ValueError "min() arg is an empty sequence")
    | Some oldest_call =>
        let wait_time := 60000 - (now - oldest_call) in
        if bool_decide (0 < wait_time) then time_sleep (wait_time + 100)
        else ret tt
    end
  else ret tt.

(** [2 ** attempt] seconds, in milliseconds *)
Definition backoff (attempt : nat) : Z := 1000 * 2 ^ Z.of_nat attempt.

(** The [except Exception] branch of the retry loop. *)
Definition on_exception (retries : Z) (attempt : nat) (continue : M (option string))
  : M (option string) :=
  if bool_decide (Z.of_nat attempt < retries - 1) then
    exec time_sleep (backoff attempt) in continue
  else ret None.

(** The body of [for attempt in range(retries)], over the attempts left. *)
Fixpoint attempt_loop (url : string) (params : gmap string string) (retries : Z)
    (attempts : list nat) : M (option string) :=
  match attempts with
  | [] => ret None                                  (* loop exhausted *)
  | attempt :: rest =>
      let continue := attempt_loop url params retries rest in
      let* response := session_get url params in
      match response with
      | TransportError => on_exception retries attempt continue
      | Response status_code body =>
          (* Track call timestamp *)
          let* now := time_time in
          let* old := get_call_timestamps in
          exec set_call_timestamps (old ++ [now]) in
          if bool_decide (status_code = 200) then
            match body with
            | Some doc => ret (Some doc)
            | None => on_exception retries attempt continue
            end
          else if bool_decide (status_code = 429) then
            exec time_sleep 60000 in continue
          else if bool_decide (500 ≤ status_code) then
            exec time_sleep (backoff attempt) in continue
          else ret None
      end
  end.

(** [range(retries)] *)
Definition range (n : Z) : list nat := seq 0 (Z.to_nat n).

(** [_make_request(url, params, retries)] *)
Definition _make_request (url : string) (params : option (gmap string string))
    (retries : Z) : M (option string) :=
  (* Rate limiting *)
  exec _enforce_rate_limit in
  (* Add API key to params *)
  let* key := get_api_key in
  let params := <["apiKey" := key]> (default ∅ params) in
  attempt_loop url params retries (range retries).

(** Default of the [retries] argument. *)
Definition default_retries : Z := 3.

(** Timestamps recorded in the 60 seconds up to [now]. *)
Definition in_window (now : Z) (s : feed) : list Z :=
  filter (λ ts, now - 60000 < ts ∧ ts ≤ now) (call_timestamps s).

(** Number of recorded calls less than 60 seconds old at time [now], by the
    test [_enforce_rate_limit] purges with. *)
Definition window_count (now : Z) (timestamps : list Z) : nat :=
  length (filter (λ ts, now - ts < 60000) timestamps).

(** The rate-window invariant at the feed's present time: no recorded call
    lies in the future, and the calls of the trailing 60 seconds are at most
    [calls_per_minute]. *)
Definition within_limit (s : feed) : Prop :=
  Forall (λ ts, ts ≤ clock s) (call_timestamps s)
  ∧ Z.of_nat (window_count (clock s) (call_timestamps s)) ≤ calls_per_minute s.

(** A sequence of requests made through the feed, one after the other. *)
Fixpoint make_requests (urls : list string) (retries : Z) (s : feed) : feed :=
  match urls with
  | [] => s
  | url :: rest => make_requests rest retries (snd (_make_request url None retries s))
  end.

(** Trace predicate: every [EvGet] has an [EvAdmit] of its own before it,
    after the previous [EvGet]. [admitted] tells whether an admission is
    pending. *)
Fixpoint each_get_admitted (admitted : bool) (tr : list event) : bool :=
  match tr with
  | [] => true
  | EvAdmit :: tr' => each_get_admitted true tr'
  | EvGet :: tr' => admitted && each_get_admitted false tr'
  | EvSleep _ :: tr' => each_get_admitted admitted tr'
  end.

(** Number of HTTP calls in a trace. *)
Fixpoint count_gets (tr : list event) : nat :=
  match tr with
  | [] => 0
  | EvGet :: tr' => S (count_gets tr')
  | _ :: tr' => count_gets tr'
  end.

(** The feed once [session.get] has returned a response and the call's
    timestamp has been appended to [call_timestamps]. *)
Definition tracked (url : string) (params : gmap string string) (s : feed) : feed :=
  snd ((exec session_get url params in
        let* now := time_time in
        let* old := get_call_timestamps in
        set_call_timestamps (old ++ [now])) s).

(** What a piece of the client did to the feed: it appended [tr] to the
    trace, without any admission check in it, and issued as many HTTP calls
    as [tr] has [EvGet]s. *)
Definition ran (tr : list event) (s s' : feed) : Prop :=
  trace s' = trace s ++ tr
  ∧ (EvAdmit ∉ tr)
  ∧ sent s' = (sent s + count_gets tr)%nat.

(** Seconds slept in a trace, in milliseconds. *)
Fixpoint total_sleep (tr : list event) : Z :=
  match tr with
  | [] => 0
  | EvSleep ms :: tr' => ms + total_sleep tr'
  | _ :: tr' => total_sleep tr'
  end.

(** The recorded calls are in the order they were made, none later than the
    present time. *)
Definition chronological (s : feed) : Prop :=
  StronglySorted Z.le (call_timestamps s)
  ∧ Forall (λ ts, ts ≤ clock s) (call_timestamps s).

(** The endpoint answers every call of the session in the same way. *)
Definition always_replies (P : outcome → Prop) (s : feed) : Prop :=
  ∀ n url params, P (reply_outcome (session s n url params)).

Definition is_server_error (o : outcome) : Prop :=
  match o with
  | Response status_code _ => 500 ≤ status_code
  | TransportError => False
  end.

Definition is_transport_error (o : outcome) : Prop :=
  match o with
  | TransportError => True
  | Response _ _ => False
  end.

End PolygonDataFeed.

(* ===================================================================== *)
(** ** unified_data_manager.py                                            *)
(* ===================================================================== *)

Module UnifiedDataManager.

(** *** Dates and their text, as f-strings print them *)

(** A naive [datetime]. *)
Record datetime : Type := {
  year : nat; month : nat; day : nat;
  hour : nat; minute : nat; second : nat; microsecond : nat
}.

Record date : Type := { date_year : nat; date_month : nat; date_day : nat }.

(** [dt.date()] *)
Definition datetime_date (dt : datetime) : date :=
  {| date_year := year dt; date_month := month dt; date_day := day dt |}.

Definition str_nat (n : nat) : string := NilZero.string_of_uint (Nat.to_uint n).

Fixpoint zeros (n : nat) : string :=
  match n with
  | O => ""
  | S n' => "0" +:+ zeros n'
  end.

(** ["%0<width>d"] *)
Definition zfill (width : nat) (n : nat) : string :=
  let s := str_nat n in zeros (width - String.length s) +:+ s.

(** [str(d)] for a date: [YYYY-MM-DD] *)
Definition str_date (d : date) : string :=
  zfill 4 (date_year d) +:+ "-" +:+ zfill 2 (date_month d) +:+ "-" +:+ zfill 2 (date_day d).

(** [str(dt)] for a naive datetime: [YYYY-MM-DD HH:MM:SS[.ffffff]] *)
Definition str_datetime (dt : datetime) : string :=
  str_date (datetime_date dt) +:+ " " +:+
  zfill 2 (hour dt) +:+ ":" +:+ zfill 2 (minute dt) +:+ ":" +:+ zfill 2 (second dt) +:+
  (if Nat.eqb (microsecond dt) 0 then "" else "." +:+ zfill 6 (microsecond dt)).

(** [f"{x}"] for an [Optional] value *)
Definition str_optional {A} (str : A → string) (x : option A) : string :=
  match x with
  | None => "None"
  | Some a => str a
  end.

(** *** Data *)

(** A [pd.DataFrame]: its rows. [pd.DataFrame()] has none. *)
Definition DataFrame : Type := list (list string).
Definition DataFrame_new : DataFrame := [].
Definition df_empty (df : DataFrame) : bool :=
  match df with [] => true | _ :: _ => false end.

(** A [pd.Series] of prices by symbol. *)
Definition Series : Type := list (string * Q).
Definition Series_new : Series := [].

(** A data feed as the manager uses it: what each method returns or raises
    on given arguments. A feed class without [get_options_chain] raises
    AttributeError there. *)
Record BaseDataFeed : Type := {
  connected : bool;
  feed_get_historical_data :
    list string → datetime → datetime → string → result DataFrame;
  feed_get_latest_prices : list string → result Series;
  feed_get_options_chain :
    string → option datetime → option Q → option string → result DataFrame
}.

(** A file of the cache directory: a pickled [{"data", "timestamp"}] record,
    or anything on which [pickle.load] or the record access raises. *)
Inductive cache_file : Type :=
| Pickled (data : DataFrame) (timestamp : Z)
| Unreadable.

Record manager : Type := {
  cache_dir : option (gmap string cache_file);
      (* the directory at self.cache_dir, by file name; None: no such directory *)
  enable_caching : bool;
  sources : gmap string (option BaseDataFeed);
  cache_hits : Z;
  cache_misses : Z;
  now : Z                    (* datetime.now(), microseconds *)
}.

Definition set_cache_dir (d : option (gmap string cache_file)) (self : manager) : manager :=
  {| cache_dir := d; enable_caching := enable_caching self;
     sources := sources self; cache_hits := cache_hits self;
     cache_misses := cache_misses self; now := now self |}.

(** [self.cache_hits += 1] *)
Definition incr_cache_hits (self : manager) : manager :=
  {| cache_dir := cache_dir self; enable_caching := enable_caching self;
     sources := sources self; cache_hits := cache_hits self + 1;
     cache_misses := cache_misses self; now := now self |}.

(** [self.cache_misses += 1] *)
Definition incr_cache_misses (self : manager) : manager :=
  {| cache_dir := cache_dir self; enable_caching := enable_caching self;
     sources := sources self; cache_hits := cache_hits self;
     cache_misses := cache_misses self + 1; now := now self |}.

(** What building and connecting one feed in [__init__] came to: [None]
    when its credentials were not given, else the feed object or the
    exception raised on the way. *)
Definition feed_setup : Type := option (result BaseDataFeed).

(** The entry of [self.sources] for a feed: the object, or [None] when the
    credentials are missing or the setup raised. *)
Definition source_entry (setup : feed_setup) : option BaseDataFeed :=
  match setup with
  | Some (Return feed) => Some feed
  | Some (Raise _) => None
  | None => None
  end.

(** [__init__]; [disk] is the cache directory as found, [t] the time. *)
Definition __init__ (alpaca polygon : feed_setup) (yahoo : result BaseDataFeed)
    (disk : option (gmap string cache_file)) (enable_caching_ : bool) (t : Z)
  : manager :=
  {| cache_dir :=
       (* os.makedirs(cache_dir, exist_ok=True) *)
       if enable_caching_ then Some (default ∅ disk) else disk;
     enable_caching := enable_caching_;
     sources :=
       <["yahoo" := source_entry (Some yahoo)]>
         (<["polygon" := source_entry polygon]>
            (<["alpaca" := source_entry alpaca]> ∅));
     cache_hits := 0;
     cache_misses := 0;
     now := t |}.

(** [self.sources.get(name)] taken as a condition: the name is bound to a
    feed object and not to [None]. *)
Definition source_available (self : manager) (name : string) : bool :=
  match sources self !! name with
  | Some (Some _) => true
  | _ => false
  end.

(** *** The cache *)

(** [f"{key}.pkl"], the file name inside the cache directory *)
Definition cache_path (key : string) : string := key +:+ ".pkl".

(** [_save_to_cache]: [open] raises when the directory is missing, and the
    exception is swallowed. *)
Definition _save_to_cache (key : string) (data : DataFrame) (self : manager) : manager :=
  match cache_dir self with
  | None => self
  | Some files =>
      set_cache_dir (Some (<[cache_path key := Pickled data (now self)]> files)) self
  end.

(** [(datetime.now() - timestamp).total_seconds() / 3600] *)
Definition age_hours (now_ timestamp : Z) : Q :=
  (inject_Z (now_ - timestamp) / 1000000) / 3600.

(** [_load_from_cache] *)
Definition _load_from_cache (key : string) (max_age_hours : Q) (self : manager)
  : option DataFrame * manager :=
  match cache_dir self with
  | None => (None, self)
  | Some files =>
      match files !! cache_path key with
      | None => (None, self)                         (* not os.path.exists *)
      | Some Unreadable => (None, self)              (* except Exception *)
      | Some (Pickled data timestamp) =>
          (* Check age *)
          if Qle_bool (age_hours (now self) timestamp) max_age_hours then
            (Some data, self)
          else
            (* Expired *)
            (None, set_cache_dir (Some (delete (cache_path key) files)) self)
      end
  end.

Record cache_stats : Type := {
  stats_cache_hits : Z;
  stats_cache_misses : Z;
  stats_hit_rate : Q;
  stats_total_requests : Z
}.

(** [get_cache_stats] *)
Definition get_cache_stats (self : manager) : cache_stats :=
  let total_requests := cache_hits self + cache_misses self in
  let hit_rate :=
    if bool_decide (0 < total_requests)
    then (inject_Z (cache_hits self) / inject_Z total_requests)%Q
    else 0%Q in
  {| stats_cache_hits := cache_hits self;
     stats_cache_misses := cache_misses self;
     stats_hit_rate := hit_rate;
     stats_total_requests := total_requests |}.

(** [clear_cache]: removes every file of the directory, when it exists. *)
Definition clear_cache (self : manager) : manager :=
  match cache_dir self with
  | Some _ => set_cache_dir (Some ∅) self
  | None => self
  end.

(** Entries a lookup can find. *)
Definition cache_entries (self : manager) : gmap string cache_file :=
  default ∅ (cache_dir self).

(** *** Historical data *)

(** [f"hist_{'-'.join(symbols)}_{start.date()}_{end.date()}_{timeframe}"] *)
Definition hist_cache_key (symbols : list string) (start end_ : datetime)
    (timeframe : string) : string :=
  "hist_" +:+ String.concat "-" symbols +:+ "_" +:+
  str_date (datetime_date start) +:+ "_" +:+
  str_date (datetime_date end_) +:+ "_" +:+ timeframe.

(** A cache check of a public method: the lookup when caching is enabled. *)
Definition check_cache (key : string) (max_age_hours : Q) (self : manager)
  : option DataFrame * manager :=
  if enable_caching self then _load_from_cache key max_age_hours self
  else (None, self).

(** [if self.enable_caching and not data.empty: self._save_to_cache(...)] *)
Definition cache_result (key : string) (data : DataFrame) (self : manager) : manager :=
  if enable_caching self && negb (df_empty data) then _save_to_cache key data self
  else self.

(** [self.sources[name].method(...)] inside a [try]: KeyError for an unknown
    name, AttributeError on [None]. *)
Definition call_source {A} (self : manager) (name : string)
    (method : BaseDataFeed → result A) : result A :=
  match sources self !! name with
  | None => Raise (KeyError name)
  | Some None => Raise (AttributeError "'NoneType' object has no such attribute")
  | Some (Some feed) => method feed
  end.

(** [source] taken as a condition: neither [None] nor the empty string. *)
Definition forced_source (source : option string) : option string :=
  match source with
  | Some s => if bool_decide (s = "") then None else Some s
  | None => None
  end.

(** The source selection of [get_historical_data]; [None] is the case that
    raises "No data sources available". *)
Definition select_historical_source (source : option string) (self : manager)
  : option string :=
  match forced_source source with
  | Some s => Some s
  | None =>
      (* Auto-select: Polygon > Yahoo *)
      if source_available self "polygon" then Some "polygon"
      else if source_available self "yahoo" then Some "yahoo"
      else None
  end.

(** [get_historical_data]. The method calls itself to fail over to Yahoo;
    [fuel] bounds the depth of these calls. *)
Fixpoint get_historical_data (fuel : nat) (symbols : list string)
    (start end_ : datetime) (timeframe : string) (source : option string)
    (self : manager) : option (result DataFrame * manager) :=
  match fuel with
  | O => None
  | S fuel' =>
      let cache_key := hist_cache_key symbols start end_ timeframe in
      (* Check cache *)
      match check_cache cache_key 24 self with
      | (Some cached_data, self) => Some (Return cached_data, incr_cache_hits self)
      | (None, self) =>
          let self := incr_cache_misses self in
          (* Select source *)
          match select_historical_source source self with
          | None => Some (Raise (RuntimeError "No data sources available"), self)
          | Some selected_source =>
              (* Get data *)
              match call_source self selected_source
                      (λ feed, feed_get_historical_data feed symbols start end_ timeframe) with
              | Return data =>
                  (* Cache the result *)
                  Some (Return data, cache_result cache_key data self)
              | Raise _ =>
                  (* Failover to alternative source *)
                  if bool_decide (selected_source = "polygon")
                     && source_available self "yahoo"
                  then get_historical_data fuel' symbols start end_ timeframe
                         (Some "yahoo") self
                  else Some (Return DataFrame_new, self)
              end
          end
      end
  end.

(** The sources [get_historical_data] tries on a cache miss, in order: the
    selected one, and Yahoo after a failing Polygon when Yahoo is there. *)
Definition historical_candidates (source : option string) (self : manager)
  : list string :=
  match select_historical_source source self with
  | None => []
  | Some selected_source =>
      selected_source ::
      (if bool_decide (selected_source = "polygon") && source_available self "yahoo"
       then ["yahoo"] else [])
  end.

(** The source [name] raises on the historical-data request. *)
Definition historical_fails (self : manager) (symbols : list string)
    (start end_ : datetime) (timeframe : string) (name : string) : Prop :=
  is_raise (call_source self name
              (λ feed, feed_get_historical_data feed symbols start end_ timeframe))
  = true.

(** The source selection of [get_latest_prices]: Alpaca > Polygon > Yahoo. *)
Definition select_prices_source (source : option string) (self : manager)
  : option string :=
  match forced_source source with
  | Some s => Some s
  | None =>
      if source_available self "alpaca" then Some "alpaca"
      else if source_available self "polygon" then Some "polygon"
      else if source_available self "yahoo" then Some "yahoo"
      else None
  end.

(** [get_latest_prices]; it fails over Alpaca > Polygon > Yahoo by calling
    itself. *)
Fixpoint get_latest_prices (fuel : nat) (symbols : list string)
    (source : option string) (self : manager) : option (result Series) :=
  match fuel with
  | O => None
  | S fuel' =>
      match select_prices_source source self with
      | None => Some (Raise (RuntimeError "No data sources available"))
      | Some selected_source =>
          match call_source self selected_source
                  (λ feed, feed_get_latest_prices feed symbols) with
          | Return prices => Some (Return prices)
          | Raise _ =>
              (* Failover *)
              if bool_decide (selected_source = "alpaca")
                 && source_available self "polygon"
              then get_latest_prices fuel' symbols (Some "polygon") self
              else if bool_decide (selected_source = "polygon")
                      && source_available self "yahoo"
              then get_latest_prices fuel' symbols (Some "yahoo") self
              else Some (Return Series_new)
          end
      end
  end.

(** *** Options chains *)

(** [f"options_{underlying_symbol}_{expiration_date}_{strike_price}_{option_type}"];
    [str_float] is Python's [str] on floats. *)
Definition options_cache_key (str_float : Q → string) (underlying_symbol : string)
    (expiration_date : option datetime) (strike_price : option Q)
    (option_type : option string) : string :=
  "options_" +:+ underlying_symbol +:+ "_" +:+
  str_optional str_datetime expiration_date +:+ "_" +:+
  str_optional str_float strike_price +:+ "_" +:+
  str_optional id option_type.

(** [get_options_chain] (Polygon only) *)
Definition get_options_chain (str_float : Q → string) (underlying_symbol : string)
    (expiration_date : option datetime) (strike_price : option Q)
    (option_type : option string) (self : manager) : result DataFrame * manager :=
  if negb (source_available self "polygon") then
    (Raise (RuntimeError "Polygon is required for options data"), self)
  else
    let cache_key :=
      options_cache_key str_float underlying_symbol expiration_date strike_price option_type in
    (* Check cache (5 minute expiry for options) *)
    match check_cache cache_key (83 # 1000) self with
    | (Some cached_data, self) => (Return cached_data, incr_cache_hits self)
    | (None, self) =>
        let self := incr_cache_misses self in
        (* Get from Polygon *)
        match call_source self "polygon"
                (λ polygon, feed_get_options_chain polygon underlying_symbol
                              expiration_date strike_price option_type) with
        | Return chain => (Return chain, cache_result cache_key chain self)
        | Raise _ => (Return DataFrame_new, self)
        end
    end.

(** *** Time, sources and health *)

(** The manager [us] microseconds later. *)
Definition advance (us : Z) (self : manager) : manager :=
  {| cache_dir := cache_dir self; enable_caching := enable_caching self;
     sources := sources self; cache_hits := cache_hits self;
     cache_misses := cache_misses self; now := now self + us |}.

(** [get_available_sources]: the names bound to a feed object. Python
    returns them as a list in the order of the dict; the map does not keep
    that order, so the result is the set of the names. *)
Definition get_available_sources (self : manager) : gset string :=
  dom (filter (λ entry, is_Some entry.2) (sources self)).

(** [health_check]: for every name of [self.sources], whether it is bound
    to a feed object that is connected. *)
Definition health_check (self : manager) : gmap string bool :=
  (λ source : option BaseDataFeed,
     match source with
     | Some feed => connected feed
     | None => false
     end) <$> sources self.

(** *** Crypto data *)

(** [f"crypto_{from_currency}{to_currency}_{start.date()}_{end.date()}_{timeframe}"] *)
Definition crypto_cache_key (from_currency to_currency : string)
    (start end_ : datetime) (timeframe : string) : string :=
  "crypto_" +:+ from_currency +:+ to_currency +:+ "_" +:+
  str_date (datetime_date start) +:+ "_" +:+
  str_date (datetime_date end_) +:+ "_" +:+ timeframe.

(** [get_crypto_data] (Polygon only). [polygon_get_crypto_data] is the
    method of that name of the Polygon feed object, which [BaseDataFeed]
    does not declare: what it returns or raises on the arguments. *)
Definition get_crypto_data
    (polygon_get_crypto_data :
       string → string → datetime → datetime → string → result DataFrame)
    (from_currency to_currency : string) (start end_ : datetime)
    (timeframe : string) (self : manager) : result DataFrame * manager :=
  if negb (source_available self "polygon") then
    (Raise (RuntimeError "Polygon is required for crypto data"), self)
  else
    let cache_key := crypto_cache_key from_currency to_currency start end_ timeframe in
    (* Check cache *)
    match check_cache cache_key 1 self with
    | (Some cached_data, self) => (Return cached_data, incr_cache_hits self)
    | (None, self) =>
        let self := incr_cache_misses self in
        match polygon_get_crypto_data from_currency to_currency start end_ timeframe with
        | Return data => (Return data, cache_result cache_key data self)
        | Raise _ => (Return DataFrame_new, self)
        end
    end.

End UnifiedDataManager.

(* ===================================================================== *)
(** ** Concrete feeds, managers and requests                              *)
(* ===================================================================== *)

Module Scenarios.
Import PolygonDataFeed UnifiedDataManager.

(** A Polygon endpoint that answers every call with HTTP 500 at once. *)
Definition server_500 : http_session :=
  λ _ _ _, {| reply_outcome := Response 500 None; reply_latency := 0 |}.

(** One that answers HTTP 500 to the first call and 200 afterwards. *)
Definition server_500_then_200 : http_session :=
  λ n _ _,
    {| reply_outcome := if Nat.eqb n 0 then Response 500 None
                        else Response 200 (Some "{}");
       reply_latency := 0 |}.

(** One that answers HTTP 429 to the first call and 200 afterwards. *)
Definition server_429_then_200 : http_session :=
  λ n _ _,
    {| reply_outcome := if Nat.eqb n 0 then Response 429 None
                        else Response 200 (Some "{}");
       reply_latency := 0 |}.

(** One that cannot be reached: every call fails after three seconds. *)
Definition server_unreachable : http_session :=
  λ _ _ _, {| reply_outcome := TransportError; reply_latency := 3000 |}.

(** One that answers every call with HTTP 200 and a document. *)
Definition server_ok : http_session :=
  λ _ _ _, {| reply_outcome := Response 200 (Some "{}"); reply_latency := 20 |}.

(** One that answers every call with HTTP 404. *)
Definition server_404 : http_session :=
  λ _ _ _, {| reply_outcome := Response 404 None; reply_latency := 0 |}.

Definition aggs_url : string :=
  "https://api.polygon.io/v2/aggs/ticker/AAPL/range/1/day/2024-01-02/2024-01-31".

(** A free-tier feed created at time 0. *)
Definition free_feed (sess : http_session) : feed :=
  PolygonDataFeed.__init__ "KEY" "free" sess 0.

(** Two requests in a row against the failing endpoint. *)
Definition after_two_requests : feed :=
  make_requests [aggs_url; aggs_url] default_retries (free_feed server_500).

Definition jan02 : datetime :=
  {| year := 2024; month := 1; day := 2;
     hour := 0; minute := 0; second := 0; microsecond := 0 |}.
Definition jan02_noon : datetime :=
  {| year := 2024; month := 1; day := 2;
     hour := 12; minute := 0; second := 0; microsecond := 0 |}.
Definition jan31 : datetime :=
  {| year := 2024; month := 1; day := 31;
     hour := 0; minute := 0; second := 0; microsecond := 0 |}.

(** A feed whose every call raises (say on HTTP 500 from its SDK). *)
Definition failing_feed : BaseDataFeed :=
  {| connected := true;
     feed_get_historical_data := λ _ _ _ _, Raise (UpstreamError "HTTP 500");
     feed_get_latest_prices := λ _, Raise (UpstreamError "HTTP 500");
     feed_get_options_chain := λ _ _ _ _, Raise (UpstreamError "HTTP 500") |}.

Definition spy_rows : DataFrame := [["2024-01-02"; "SPY"; "472.65"]].

(** A feed that returns one row of data. *)
Definition working_feed : BaseDataFeed :=
  {| connected := true;
     feed_get_historical_data := λ _ _ _ _, Return spy_rows;
     feed_get_latest_prices := λ _, Return [("SPY", 472 # 1)%Q];
     feed_get_options_chain := λ _ _ _ _, Raise (AttributeError "get_options_chain") |}.

Definition hour_us : Z := 3600000000.

Definition mk_manager (files : gmap string cache_file)
    (polygon yahoo : option BaseDataFeed) (t : Z) : manager :=
  {| cache_dir := Some files;
     enable_caching := true;
     sources := <["alpaca" := None]> (<["polygon" := polygon]> (<["yahoo" := yahoo]> ∅));
     cache_hits := 0;
     cache_misses := 0;
     now := t |}.

(** Polygon and Yahoo both configured, both failing; empty cache. *)
Definition all_fail_manager : manager :=
  mk_manager ∅ (Some failing_feed) (Some failing_feed) (100 * hour_us).

Definition aapl_key : string := hist_cache_key ["AAPL"] jan02 jan31 "1Day".

(** The same, with a 25-hour-old record stored for the AAPL request. *)
Definition stale_files : gmap string cache_file :=
  <[cache_path aapl_key := Pickled spy_rows (75 * hour_us)]> ∅.
Definition stale_all_fail_manager : manager :=
  mk_manager stale_files (Some failing_feed) (Some failing_feed) (100 * hour_us).

(** No Polygon key given; Yahoo works; a fresh record in the cache. *)
Definition fresh_files : gmap string cache_file :=
  <[cache_path aapl_key := Pickled spy_rows (99 * hour_us)]> ∅.
Definition no_polygon_manager : manager :=
  mk_manager fresh_files None (Some working_feed) (100 * hour_us).

(** A newly built manager in the test suite's configuration: Yahoo only,
    empty cache, counters at zero. *)
Definition new_manager : manager :=
  mk_manager ∅ None (Some working_feed) (100 * hour_us).

Definition str_float_stub : Q → string := λ _, "150.0".

(** Alpaca configured but failing, no Polygon key, Yahoo working. *)
Definition alpaca_down_manager : manager :=
  __init__ (Some (Return failing_feed)) None (Return working_feed) (Some ∅) true
    (100 * hour_us).

Definition aapl_chain : DataFrame := [["O:AAPL240315C00150000"; "AAPL"; "150"; "call"]].

(** A Polygon feed that serves an options chain. *)
Definition options_feed : BaseDataFeed :=
  {| connected := true;
     feed_get_historical_data := λ _ _ _ _, Return spy_rows;
     feed_get_latest_prices := λ _, Return [("SPY", 472 # 1)%Q];
     feed_get_options_chain := λ _ _ _ _, Return aapl_chain |}.

(** Polygon serving options, Yahoo working, empty cache. *)
Definition options_manager : manager :=
  mk_manager ∅ (Some options_feed) (Some working_feed) (100 * hour_us).

(** Polygon configured but raising on every call, empty cache. *)
Definition polygon_down_manager : manager :=
  mk_manager ∅ (Some failing_feed) (Some working_feed) (100 * hour_us).

End Scenarios.

(* ===================================================================== *)
(** ** Properties of the Polygon feed's client                            *)
(* ===================================================================== *)

Section PolygonClient.
Import PolygonDataFeed Scenarios.

Lemma count_gets_app tr1 tr2 :
  count_gets (tr1 ++ tr2) = (count_gets tr1 + count_gets tr2)%nat.
Proof.
  induction tr1 as [|e tr1 IH]; [done|].
  destruct e; simpl; rewrite IH; done.
Qed.

Lemma ran_refl s : ran [] s s.
Proof.
  unfold ran. rewrite app_nil_r.
  split_and!; [done | apply not_elem_of_nil | simpl; lia].
Qed.

Lemma ran_trans tr1 tr2 s1 s2 s3 :
  ran tr1 s1 s2 → ran tr2 s2 s3 → ran (tr1 ++ tr2) s1 s3.
Proof.
  intros (Ht1 & Ha1 & Hs1) (Ht2 & Ha2 & Hs2). unfold ran.
  rewrite Ht2, Ht1, Hs2, Hs1, count_gets_app, app_assoc.
  split_and!; [done| |lia].
  rewrite elem_of_app. tauto.
Qed.

Local Ltac ran_one :=
  unfold ran; simpl;
  split_and!; [done | by intros ?%list_elem_of_singleton | lia].

Lemma ran_sleep ms s : ran [EvSleep ms] s (snd (time_sleep ms s)).
Proof. ran_one. Qed.

Lemma ran_tracked url params s : ran [EvGet] s (tracked url params s).
Proof. unfold tracked. ran_one. Qed.

Lemma ran_session_get url params s : ran [EvGet] s (snd (session_get url params s)).
Proof. ran_one. Qed.

(** The retry loop appends a trace with no admission check and at most one
    HTTP call per attempt left. *)
Lemma attempt_loop_ran url params retries attempts : ∀ s,
  ∃ tr, ran tr s (snd (attempt_loop url params retries attempts s))
        ∧ (count_gets tr ≤ length attempts)%nat.
Proof.
  induction attempts as [|attempt rest IH]; intros s.
  - exists []. split; [apply ran_refl | simpl; lia].
  - assert (Hcont : ∀ pre s2, ran pre s s2 → count_gets pre = 1%nat →
              ∃ tr, ran tr s (snd (attempt_loop url params retries rest s2))
                    ∧ (count_gets tr ≤ length (attempt :: rest))%nat).
    { intros pre s2 Hpre Hone. destruct (IH s2) as (tr2 & Hr2 & Hc2).
      exists (pre ++ tr2). split; [by eapply ran_trans|].
      rewrite count_gets_app, Hone. simpl. lia. }
    assert (Hstop : ∀ s2, ran [EvGet] s s2 →
              ∃ tr, ran tr s s2 ∧ (count_gets tr ≤ length (attempt :: rest))%nat).
    { intros s2 Hs2. exists [EvGet]. split; [done | simpl; lia]. }
    assert (Hexc : ∀ s2, ran [EvGet] s s2 →
              ∃ tr, ran tr s (snd (on_exception retries attempt
                                      (attempt_loop url params retries rest) s2))
                    ∧ (count_gets tr ≤ length (attempt :: rest))%nat).
    { intros s2 Hs2. unfold on_exception. case_bool_decide.
      - unfold bind. simpl.
        apply (Hcont ([EvGet] ++ [EvSleep (backoff attempt)])); [|done].
        eapply ran_trans; [exact Hs2 | apply ran_sleep].
      - by apply Hstop. }
    cbn [attempt_loop]. unfold bind at 1.
    pose proof (ran_session_get url params s) as Hget.
    pose proof (ran_tracked url params s) as Htr.
    unfold tracked in Htr. unfold bind in Htr at 1.
    destruct (session_get url params s) as [[o|e] s1] eqn:Hsg; simpl in Hget.
    2:{ unfold session_get in Hsg. discriminate. }
    destruct o as [|code body].
    + by apply Hexc.
    + simpl in Htr. unfold bind at 1 2 3. simpl.
      set (s2 := snd (set_call_timestamps (call_timestamps s1 ++ [clock s1]) s1)) in *.
      repeat case_bool_decide.
      * destruct body; [by apply Hstop | by apply Hexc].
      * unfold bind. simpl.
        apply (Hcont ([EvGet] ++ [EvSleep 60000])); [|done].
        eapply ran_trans; [exact Htr | apply ran_sleep].
      * unfold bind. simpl.
        apply (Hcont ([EvGet] ++ [EvSleep (backoff attempt)])); [|done].
        eapply ran_trans; [exact Htr | apply ran_sleep].
      * by apply Hstop.
Qed.

Local Ltac use_nil :=
  lazymatch goal with
  | Hnil : ∀ s', _ |- ∃ tr, _ ∧ ran tr _ ?s1 ∧ _ => by apply (Hnil s1)
  end.

(** One pass through the rate limiter logs one admission check, sleeps at
    most once and issues no HTTP call. *)
Lemma enforce_rate_limit_ran s :
  ∃ tr, trace (snd (_enforce_rate_limit s)) = trace s ++ EvAdmit :: tr
        ∧ ran tr (emit EvAdmit s) (snd (_enforce_rate_limit s))
        ∧ count_gets tr = 0%nat.
Proof.
  unfold _enforce_rate_limit, bind; simpl.
  assert (Hnil : ∀ s', trace s' = trace s ++ [EvAdmit] → sent s' = sent s →
            ∃ tr, trace s' = trace s ++ EvAdmit :: tr
                  ∧ ran tr (emit EvAdmit s) s' ∧ count_gets tr = 0%nat).
  { intros s' Ht Hs. exists []. split; [done|]. split; [|done].
    unfold ran; simpl. rewrite app_nil_r.
    split_and!; [done | apply not_elem_of_nil | lia]. }
  case_bool_decide; [|use_nil].
  destruct (list_min _) as [oldest|]; simpl; [|use_nil].
  case_bool_decide; [|use_nil].
  simpl. eexists [EvSleep _]. rewrite <- app_assoc. split; [done|].
  split; [|done]. unfold ran; simpl.
  split_and!; [done | by intros ?%list_elem_of_singleton | lia].
Qed.

Lemma make_request_unfold url params retries s :
  _make_request url params retries s =
  match _enforce_rate_limit s with
  | (Return _, s1) =>
      attempt_loop url (<["apiKey" := api_key s1]> (default ∅ params)) retries
        (range retries) s1
  | (Raise e, s1) => (Raise e, s1)
  end.
Proof.
  unfold _make_request. unfold bind at 1.
  by destruct (_enforce_rate_limit s) as [[[]|e] s1].
Qed.

(** The whole request: one admission check first, then the retry loop. *)
Lemma make_request_ran url params retries s :
  ∃ tr, trace (snd (_make_request url params retries s)) = trace s ++ EvAdmit :: tr
        ∧ (EvAdmit ∉ tr)
        ∧ sent (snd (_make_request url params retries s)) = (sent s + count_gets tr)%nat
        ∧ (count_gets tr ≤ Z.to_nat retries)%nat.
Proof.
  destruct (enforce_rate_limit_ran s) as (tr1 & Ht1 & (_ & Ha1 & Hs1) & Hc1).
  rewrite !make_request_unfold.
  destruct (_enforce_rate_limit s) as [[[]|e] s1]; simpl in *.
  - destruct (attempt_loop_ran url (<["apiKey":=api_key s1]> (default ∅ params))
                retries (range retries) s1) as (tr2 & (Ht2 & Ha2 & Hs2) & Hc2).
    exists (tr1 ++ tr2). rewrite Ht2, Ht1, Hs2, Hs1, count_gets_app, Hc1.
    unfold range in Hc2. rewrite length_seq in Hc2.
    split_and!; [by rewrite <- app_assoc | | lia | lia].
    rewrite elem_of_app. tauto.
  - exists tr1. rewrite Hs1, Hc1. split_and!; [done | done | lia | lia].
Qed.

(** *** The rate window when no request retries *)

Lemma window_count_le now timestamps :
  (window_count now timestamps ≤ length timestamps)%nat.
Proof. apply length_filter. Qed.

Lemma window_count_mono now now' timestamps :
  now ≤ now' → (window_count now' timestamps ≤ window_count now timestamps)%nat.
Proof.
  intros Hle. unfold window_count.
  induction timestamps as [|ts l IH]; [done|].
  rewrite !filter_cons. repeat case_decide; simpl; lia.
Qed.

Lemma window_count_snoc now timestamps ts :
  (window_count now (timestamps ++ [ts]) ≤ S (window_count now timestamps))%nat.
Proof.
  unfold window_count. rewrite filter_app, length_app.
  pose proof (length_filter (λ ts, now - ts < 60000) [ts]). simpl in *. lia.
Qed.

(** A recorded call that has left the window is not counted. *)
Lemma window_count_expired now timestamps ts :
  ts ∈ timestamps → ts + 60000 ≤ now →
  (window_count now timestamps < length timestamps)%nat.
Proof.
  intros Hin Hold. unfold window_count.
  induction timestamps as [|x l IH]; [by apply not_elem_of_nil in Hin|].
  rewrite filter_cons. apply elem_of_cons in Hin as [<-|Hin].
  - rewrite decide_False by lia.
    pose proof (length_filter (λ ts, now - ts < 60000) l). simpl. lia.
  - specialize (IH Hin). case_decide; simpl; lia.
Qed.

Lemma list_min_elem xs oldest : list_min xs = Some oldest → oldest ∈ xs.
Proof.
  destruct xs as [|x xs]; [done|]. intros [= <-].
  induction xs as [|y ys IH]; simpl.
  - apply elem_of_cons. by left.
  - destruct (Z.min_spec y (foldr Z.min x ys)) as [[_ ->]|[_ ->]].
    + apply elem_of_cons. right. apply elem_of_cons. by left.
    + apply elem_of_cons in IH as [->|IH].
      * apply elem_of_cons. by left.
      * apply elem_of_cons. right. apply elem_of_cons. by right.
Qed.

(** What the admission check leaves: the purged list, the same limit, a
    clock that has not gone back, and room for one more call in the window,
    either because the list is below the limit or because its oldest call
    has aged out. *)
Lemma enforce_rate_limit_room s :
  0 < calls_per_minute s →
  let s1 := snd (_enforce_rate_limit s) in
  calls_per_minute s1 = calls_per_minute s
  ∧ call_timestamps s1 = filter (λ ts, clock s - ts < 60000) (call_timestamps s)
  ∧ clock s ≤ clock s1
  ∧ (Z.of_nat (length (call_timestamps s1)) < calls_per_minute s
     ∨ ∃ oldest, oldest ∈ call_timestamps s1 ∧ oldest + 60000 ≤ clock s1).
Proof.
  intros Hlimit. unfold _enforce_rate_limit, bind; simpl.
  case_bool_decide as Hfull; simpl; [|split_and!; [done | done | lia | left; lia]].
  destruct (list_min _) as [oldest|] eqn:Hmin; simpl.
  - apply list_min_elem in Hmin.
    case_bool_decide; simpl.
    + split_and!; [done | done | lia | right; exists oldest; split; [done|lia]].
    + split_and!; [done | done | lia | right; exists oldest; split; [done|lia]].
  - destruct (filter _ _); [simpl in Hfull; lia | done].
Qed.

Lemma on_exception_last (continue : M (option string)) :
  on_exception 1 0 continue = ret None.
Proof. unfold on_exception. by rewrite bool_decide_eq_false_2 by (simpl; lia). Qed.

(** A request with a single attempt records at most one call, at a time
    between the admission and the end of the request. *)
Lemma single_attempt_records url params s :
  let s' := snd (attempt_loop url params 1 [0%nat] s) in
  calls_per_minute s' = calls_per_minute s
  ∧ clock s ≤ clock s'
  ∧ (call_timestamps s' = call_timestamps s
     ∨ ∃ t, clock s ≤ t ≤ clock s' ∧ call_timestamps s' = call_timestamps s ++ [t]).
Proof.
  cbn [attempt_loop]. rewrite !on_exception_last.
  change (backoff 0) with 1000.
  unfold bind, session_get. cbv zeta.
  generalize (session s (sent s) url params). intros r.
  pose proof (Nat2Z.is_nonneg (reply_latency r)) as Hlat.
  destruct (reply_outcome r) as [|code body]; simpl.
  - split_and!; [done | lia | by left].
  - repeat case_bool_decide; simpl.
    + destruct body; simpl;
        (split_and!; [done | lia | right; eexists; split; [|done]; lia]).
    + split_and!; [done | lia | right; eexists; split; [|done]; lia].
    + split_and!; [done | lia | right; eexists; split; [|done]; lia].
    + split_and!; [done | lia | right; eexists; split; [|done]; lia].
Qed.

(** While every request is made with a single attempt ([retries = 1]), the
    rate limiter keeps its invariant: the calls recorded in the trailing 60
    seconds never exceed [calls_per_minute]. *)
Lemma single_attempt_within_limit url params s :
  0 < calls_per_minute s →
  within_limit s →
  within_limit (snd (_make_request url params 1 s)).
Proof.
  intros Hlimit [Hpast Hcount].
  destruct (enforce_rate_limit_room s Hlimit) as (Hcpm1 & Hkept & Hclock1 & Hroom).
  rewrite make_request_unfold.
  assert (Hkept_past : Forall (λ ts, ts ≤ clock s)
                         (filter (λ ts, clock s - ts < 60000) (call_timestamps s))).
  { apply Forall_forall. intros ts [_ Hin]%list_elem_of_filter.
    by eapply Forall_forall in Hpast. }
  destruct (_enforce_rate_limit s) as [[[]|e] s1]; cbn [fst snd] in *.
  - change (range 1) with [0%nat].
    destruct (single_attempt_records url (<["apiKey":=api_key s1]> (default ∅ params)) s1)
      as (Hcpm' & Hclock' & Hts).
    set (s' := snd (attempt_loop _ _ 1 [0%nat] s1)) in *.
    unfold within_limit. rewrite Hcpm', Hcpm1.
    assert (Hwin : (window_count (clock s') (call_timestamps s1)
                    < Z.to_nat (calls_per_minute s))%nat).
    { destruct Hroom as [Hbelow | (oldest & Hin & Hold)].
      - pose proof (window_count_le (clock s') (call_timestamps s1)). lia.
      - pose proof (window_count_expired (clock s') (call_timestamps s1) oldest Hin).
        pose proof (window_count_le (clock s) (call_timestamps s)).
        assert (length (call_timestamps s1) = window_count (clock s) (call_timestamps s))
          by by rewrite Hkept.
        unfold window_count in *. lia. }
    destruct Hts as [-> | (t & Ht & ->)].
    + split; [|lia].
      rewrite Hkept. eapply Forall_impl; [exact Hkept_past|]. simpl. lia.
    + split.
      * apply Forall_app. split.
        -- rewrite Hkept. eapply Forall_impl; [exact Hkept_past|]. simpl. lia.
        -- apply Forall_singleton. lia.
      * pose proof (window_count_snoc (clock s') (call_timestamps s1) t). lia.
  - unfold within_limit. rewrite Hcpm1, Hkept. split.
    + eapply Forall_impl; [exact Hkept_past|]. simpl. lia.
    + pose proof (window_count_le (clock s1)
                    (filter (λ ts, clock s - ts < 60000) (call_timestamps s))).
      pose proof (window_count_mono (clock s) (clock s1)
                    (filter (λ ts, clock s - ts < 60000) (call_timestamps s)) Hclock1).
      pose proof (window_count_le (clock s)
                    (filter (λ ts, clock s - ts < 60000) (call_timestamps s))).
      unfold window_count in *. lia.
Qed.

Lemma attempt_loop_calls_per_minute url params retries attempts : ∀ s,
  calls_per_minute (snd (attempt_loop url params retries attempts s))
  = calls_per_minute s.
Proof.
  induction attempts as [|attempt rest IH]; intros s; [done|].
  assert (Hexc : ∀ s2, calls_per_minute
                         (snd (on_exception retries attempt
                                 (attempt_loop url params retries rest) s2))
                       = calls_per_minute s2).
  { intros s2. unfold on_exception. case_bool_decide; [|done].
    unfold bind; simpl. by rewrite IH. }
  cbn [attempt_loop]. unfold bind at 1. unfold session_get. cbv zeta.
  destruct (reply_outcome _) as [|code body]; [by rewrite Hexc|].
  unfold bind; simpl. repeat case_bool_decide; simpl; rewrite ?IH; try done.
  destruct body; [done|]. by rewrite Hexc.
Qed.

Lemma make_request_calls_per_minute url params retries s :
  calls_per_minute (snd (_make_request url params retries s)) = calls_per_minute s.
Proof.
  rewrite make_request_unfold.
  assert (Hadmit : calls_per_minute (snd (_enforce_rate_limit s)) = calls_per_minute s).
  { unfold _enforce_rate_limit, bind; simpl.
    case_bool_decide; [|done]. destruct (list_min _); [|done].
    by case_bool_decide. }
  destruct (_enforce_rate_limit s) as [[[]|e] s1]; cbn [fst snd] in *; [|done].
  by rewrite attempt_loop_calls_per_minute.
Qed.

(** Every tier gets a positive limit: the table's, or 5. *)
Lemma init_calls_per_minute key tier_ sess t0 :
  5 ≤ calls_per_minute (__init__ key tier_ sess t0).
Proof.
  unfold __init__, rate_limits; simpl.
  rewrite !lookup_insert. repeat case_decide; simpl; try lia.
  rewrite lookup_empty. simpl. lia.
Qed.

(** Any sequence of single-attempt requests on a new feed keeps the calls
    of the trailing 60 seconds within [calls_per_minute]. *)
Lemma single_attempt_requests_within_limit key tier_ sess t0 urls :
  within_limit (make_requests urls 1 (__init__ key tier_ sess t0)).
Proof.
  pose proof (init_calls_per_minute key tier_ sess t0) as Hlimit.
  assert (Hinit : within_limit (__init__ key tier_ sess t0)).
  { split; [by apply Forall_nil|].
    change (Z.of_nat 0 ≤ calls_per_minute (__init__ key tier_ sess t0)). lia. }
  revert Hlimit Hinit. generalize (__init__ key tier_ sess t0). intros s.
  revert s. induction urls as [|url rest IH]; intros s Hlimit Hs; [done|].
  simpl. apply IH.
  - by rewrite make_request_calls_per_minute.
  - apply single_attempt_within_limit; [lia | done].
Qed.

(** C2 (as the code runs it). A free-tier feed (5 calls per minute) sends
    two requests to an endpoint that answers HTTP 500: each request passes
    the rate limiter once and then makes three attempts, so six call
    timestamps lie within ten seconds, all inside one trailing 60-second
    window, against a limit of five. *)
Theorem rate_window_exceeded_by_retries :
  calls_per_minute after_two_requests = 5
  ∧ call_timestamps after_two_requests = [0; 1000; 3000; 7000; 8000; 10000]
  ∧ clock after_two_requests = 14000
  ∧ in_window 10000 after_two_requests = [0; 1000; 3000; 7000; 8000; 10000]
  ∧ calls_per_minute after_two_requests
      < Z.of_nat (length (in_window 10000 after_two_requests))
  ∧ calls_per_minute after_two_requests
      < Z.of_nat (window_count (clock after_two_requests)
                    (call_timestamps after_two_requests)).
Proof. vm_compute. split_and!; reflexivity. Qed.

(** C5 (as the code runs it). A request whose first attempt gets HTTP 500
    and whose second gets 200 passes the rate limiter once: the retry is
    preceded by the backoff sleep only, not by an admission check of its
    own. *)
Theorem retry_is_not_readmitted :
  trace (snd (_make_request aggs_url None default_retries
                (free_feed server_500_then_200)))
    = [EvAdmit; EvGet; EvSleep 1000; EvGet]
  ∧ each_get_admitted false
      (trace (snd (_make_request aggs_url None default_retries
                     (free_feed server_500_then_200)))) = false.
Proof. vm_compute. split; reflexivity. Qed.

(** In general: every request passes through the rate limiter's admission
    check exactly once, before its first HTTP attempt; the attempts and
    sleeps that follow, retries included, come with no further admission
    check. *)
Lemma make_request_admits_once url params retries s :
  ∃ tr, trace (snd (_make_request url params retries s)) = trace s ++ EvAdmit :: tr
        ∧ (EvAdmit ∉ tr).
Proof.
  destruct (make_request_ran url params retries s) as (tr & Ht & Ha & _).
  by exists tr.
Qed.

(** C6. Whatever the replies, a request with retry count [retries] returns
    (a document, [None], or an exception of the rate limiter) after at most
    [retries] HTTP attempts; with the default count, after at most three. *)
Theorem make_request_attempts_bounded url params retries s :
  ∃ r s' tr,
    _make_request url params retries s = (r, s')
    ∧ trace s' = trace s ++ tr
    ∧ sent s' = (sent s + count_gets tr)%nat
    ∧ Z.of_nat (count_gets tr) ≤ Z.max 0 retries
    ∧ (retries = default_retries → (sent s' ≤ sent s + 3)%nat).
Proof.
  destruct (make_request_ran url params retries s) as (tr & Ht & _ & Hs & Hc).
  destruct (_make_request url params retries s) as [r s'] eqn:Hrun; simpl in *.
  exists r, s', (EvAdmit :: tr). simpl.
  split_and!; [done | done | done | lia |].
  intros ->. unfold default_retries in Hc. simpl in Hc. lia.
Qed.

(** The retry loop never un-sends a call, and sends one when an attempt is
    left. *)
Lemma attempt_loop_sends url params retries attempt rest s :
  (sent s < sent (snd (attempt_loop url params retries (attempt :: rest) s)))%nat.
Proof.
  cbn [attempt_loop]. unfold bind at 1.
  destruct (session_get url params s) as [[o|e] s1] eqn:Hsg;
    [|unfold session_get in Hsg; discriminate].
  assert (Hs1 : sent s1 = S (sent s)) by (unfold session_get in Hsg; by simplify_eq).
  assert (Hmono : ∀ l s2, (sent s2 ≤ sent (snd (attempt_loop url params retries l s2)))%nat).
  { intros l s2. destruct (attempt_loop_ran url params retries l s2)
      as (tr2 & (_ & _ & Hs2) & _). lia. }
  destruct o as [|code body].
  - unfold on_exception. case_bool_decide; simpl; [|lia].
    unfold bind; simpl. eapply Nat.lt_le_trans; [|apply Hmono]; simpl; lia.
  - unfold bind; simpl. repeat case_bool_decide.
    + destruct body; simpl; [lia|].
      unfold on_exception. case_bool_decide; simpl; [|lia].
      unfold bind; simpl. eapply Nat.lt_le_trans; [|apply Hmono]; simpl; lia.
    + eapply Nat.lt_le_trans; [|apply Hmono]; simpl; lia.
    + eapply Nat.lt_le_trans; [|apply Hmono]; simpl; lia.
    + simpl. lia.
Qed.

(** C7. An attempt that gets a response is handled by its status: on 429
    the client sleeps 60 seconds and goes on with the attempts left; on 5xx
    it sleeps [2 ** attempt] seconds, a delay that doubles with each attempt,
    and goes on with the attempts left; on any other 4xx it returns [None]
    at once, without sleeping or sending again. Going on with an attempt left
    sends a new HTTP call. *)
Theorem retry_policy_by_status url params retries attempt rest s code body :
  reply_outcome (session s (sent s) url params) = Response code body →
  let s1 := tracked url params s in
  let run := attempt_loop url params retries in
  (code = 429 → run (attempt :: rest) s = run rest (snd (time_sleep 60000 s1)))
  ∧ (500 ≤ code →
       run (attempt :: rest) s = run rest (snd (time_sleep (backoff attempt) s1)))
  ∧ (400 ≤ code < 500 → code ≠ 429 → run (attempt :: rest) s = (Return None, s1))
  ∧ backoff 0 = 1000
  ∧ backoff (S attempt) = 2 * backoff attempt
  ∧ (∀ next rest' s2, (sent s2 < sent (snd (run (next :: rest') s2)))%nat).
Proof.
  intros Hreply s1 run. subst s1 run. unfold tracked.
  split_and!.
  - intros ->. cbn [attempt_loop]. unfold bind, session_get. rewrite Hreply. done.
  - intros Hcode. cbn [attempt_loop]. unfold bind, session_get. rewrite Hreply.
    simpl. rewrite !bool_decide_eq_false_2 by lia.
    rewrite bool_decide_eq_true_2 by lia. done.
  - intros Hcode Hne. cbn [attempt_loop]. unfold bind, session_get. rewrite Hreply.
    simpl. rewrite !bool_decide_eq_false_2 by lia. done.
  - reflexivity.
  - unfold backoff. rewrite Nat2Z.inj_succ, Z.pow_succ_r by lia. lia.
  - intros. apply attempt_loop_sends.
Qed.

(** C7 (instance). A 429 on the first of three attempts: a 60-second sleep,
    then the second attempt, which succeeds. *)
Lemma retry_policy_by_status_429 :
  reply_outcome (session (free_feed server_429_then_200) 0%nat aggs_url ∅)
    = Response 429 None
  ∧ attempt_loop aggs_url ∅ 3 [0; 1; 2]%nat (free_feed server_429_then_200)
    = attempt_loop aggs_url ∅ 3 [1; 2]%nat
        (snd (time_sleep 60000 (tracked aggs_url ∅ (free_feed server_429_then_200)))).
Proof.
  split; [reflexivity|].
  exact (proj1 (retry_policy_by_status aggs_url ∅ 3 0%nat [1; 2]%nat
                  (free_feed server_429_then_200) 429 None eq_refl) eq_refl).
Defined.

End PolygonClient.

(* ===================================================================== *)
(** ** Properties of the manager's cache                                  *)
(* ===================================================================== *)

Section ManagerCache.
Import UnifiedDataManager Scenarios.

Lemma Qle_bool_false_lt (x y : Q) : Qle_bool x y = false → (y < x)%Q.
Proof.
  intros Hb. apply Qnot_le_lt. intros Hle.
  apply Qle_bool_iff in Hle. congruence.
Qed.

Lemma Qlt_Qle_bool_false (x y : Q) : (y < x)%Q → Qle_bool x y = false.
Proof.
  intros Hlt. destruct (Qle_bool x y) eqn:Hb; [|done].
  apply Qle_bool_iff in Hb. by apply Qlt_not_le in Hlt.
Qed.

(** C1. A lookup serves a record only when its age is within the maximum
    age; a record older than that is reported as a miss and its file is
    removed from the cache directory. *)
Theorem load_from_cache_never_stale key max_age_hours self :
  (∀ data self',
     _load_from_cache key max_age_hours self = (Some data, self') →
     ∃ files timestamp,
       cache_dir self = Some files
       ∧ files !! cache_path key = Some (Pickled data timestamp)
       ∧ (age_hours (now self) timestamp <= max_age_hours)%Q
       ∧ self' = self)
  ∧ (∀ files data timestamp,
       cache_dir self = Some files →
       files !! cache_path key = Some (Pickled data timestamp) →
       (max_age_hours < age_hours (now self) timestamp)%Q →
       _load_from_cache key max_age_hours self
         = (None, set_cache_dir (Some (delete (cache_path key) files)) self)
       ∧ cache_entries (snd (_load_from_cache key max_age_hours self))
           !! cache_path key = None).
Proof.
  split.
  - intros data self'. unfold _load_from_cache.
    destruct (cache_dir self) as [files|] eqn:Hdir; [|done].
    destruct (files !! cache_path key) as [[d ts|]|] eqn:Hfile; [|done|done].
    destruct (Qle_bool _ _) eqn:Hage; [|done].
    intros [= -> <-]. exists files, ts.
    split_and!; [done | done | by apply Qle_bool_iff | done].
  - intros files data ts Hdir Hfile Hold. unfold _load_from_cache.
    rewrite Hdir, Hfile, (Qlt_Qle_bool_false _ _ Hold). split; [done|].
    unfold cache_entries; simpl. apply lookup_delete_eq.
Qed.

(** C1 (instance). A 25-hour-old record looked up with a 24-hour limit. *)
Lemma load_from_cache_never_stale_25h :
  _load_from_cache aapl_key 24 stale_all_fail_manager
  = (None, set_cache_dir (Some (delete (cache_path aapl_key) stale_files))
             stale_all_fail_manager).
Proof.
  exact (proj1 (proj2 (load_from_cache_never_stale aapl_key 24 stale_all_fail_manager)
                  stale_files spy_rows (75 * hour_us) eq_refl eq_refl eq_refl)).
Defined.

(** Clearing the cache empties the directory and leaves both counters as
    they were. *)
Lemma clear_cache_spec self :
  cache_entries (clear_cache self) = ∅
  ∧ cache_hits (clear_cache self) = cache_hits self
  ∧ cache_misses (clear_cache self) = cache_misses self.
Proof.
  unfold clear_cache, cache_entries.
  destruct (cache_dir self) as [files|] eqn:Hdir; simpl; [done|].
  by rewrite Hdir.
Qed.

(** C8 (as the code runs it). A new manager fetches SPY (a miss), then
    clears its cache: the cache is empty, and the statistics still report
    the miss. *)
Theorem clear_cache_keeps_counters :
  ∃ fetched,
    get_historical_data 2 ["SPY"] jan02 jan31 "1Day" None new_manager
      = Some (Return spy_rows, fetched)
    ∧ cache_entries (clear_cache fetched) = ∅
    ∧ stats_cache_hits (get_cache_stats (clear_cache fetched)) = 0
    ∧ stats_cache_misses (get_cache_stats (clear_cache fetched)) = 1.
Proof.
  eexists. split; [vm_compute; reflexivity|].
  split; [apply clear_cache_spec|]. split; reflexivity.
Qed.

(** C10. Without a Polygon feed object in [self.sources], a request for an
    options chain raises RuntimeError and leaves the manager as it was:
    cache directory, hit counter and miss counter included. *)
Theorem options_chain_requires_polygon str_float underlying_symbol
    expiration_date strike_price option_type self :
  source_available self "polygon" = false →
  get_options_chain str_float underlying_symbol expiration_date strike_price
    option_type self
  = (Raise (RuntimeError "Polygon is required for options data"), self).
Proof. intros Hno. unfold get_options_chain. by rewrite Hno. Qed.

(** [__init__] leaves no Polygon feed object when the key is missing or the
    setup raised. *)
Lemma init_without_polygon alpaca polygon yahoo disk caching t :
  source_entry polygon = None →
  source_available (__init__ alpaca polygon yahoo disk caching t) "polygon" = false.
Proof.
  intros Hp. unfold source_available, __init__; simpl.
  rewrite lookup_insert_ne by done. rewrite lookup_insert_eq. by rewrite Hp.
Qed.

(** C10 (instance). No Polygon key, a fresh record in the cache. *)
Lemma options_chain_requires_polygon_no_key :
  get_options_chain str_float_stub "AAPL" None None None no_polygon_manager
  = (Raise (RuntimeError "Polygon is required for options data"),
     no_polygon_manager).
Proof.
  exact (options_chain_requires_polygon str_float_stub "AAPL" None None None
           no_polygon_manager eq_refl).
Defined.




(** A cache check changes nothing but the cache directory. *)
Lemma check_cache_frame key max_age_hours self :
  sources (snd (check_cache key max_age_hours self)) = sources self
  ∧ enable_caching (snd (check_cache key max_age_hours self)) = enable_caching self
  ∧ cache_hits (snd (check_cache key max_age_hours self)) = cache_hits self
  ∧ cache_misses (snd (check_cache key max_age_hours self)) = cache_misses self
  ∧ now (snd (check_cache key max_age_hours self)) = now self.
Proof.
  unfold check_cache, _load_from_cache.
  repeat case_match; done.
Qed.

(** What a cache check does to the directory: nothing, or the eviction of
    the expired record of the key. *)
Lemma check_cache_dir key max_age_hours self :
  cache_dir (snd (check_cache key max_age_hours self)) = cache_dir self
  ∨ ∃ files data timestamp,
      enable_caching self = true
      ∧ cache_dir self = Some files
      ∧ files !! cache_path key = Some (Pickled data timestamp)
      ∧ (max_age_hours < age_hours (now self) timestamp)%Q
      ∧ cache_dir (snd (check_cache key max_age_hours self))
        = Some (delete (cache_path key) files).
Proof.
  unfold check_cache, _load_from_cache.
  destruct (enable_caching self) eqn:Hon; [|by left].
  destruct (cache_dir self) as [files|] eqn:Hdir; [|by left].
  destruct (files !! cache_path key) as [[d ts|]|] eqn:Hfile; [|by left..].
  destruct (Qle_bool _ _) eqn:Hage; [by left|].
  right. exists files, d, ts. simpl.
  split_and!; [done | done | done | by apply Qle_bool_false_lt | done].
Qed.

(** A miss stays a miss: checking again right after a miss finds nothing
    and changes nothing. *)
Lemma check_cache_miss_again key max_age_hours self :
  fst (check_cache key max_age_hours self) = None →
  check_cache key max_age_hours
    (incr_cache_misses (snd (check_cache key max_age_hours self)))
  = (None, incr_cache_misses (snd (check_cache key max_age_hours self))).
Proof.
  unfold check_cache, _load_from_cache.
  destruct (enable_caching self) eqn:Hon; simpl; [|by rewrite Hon].
  destruct (cache_dir self) as [files|] eqn:Hdir; simpl; [|by rewrite Hon, Hdir].
  destruct (files !! cache_path key) as [[d ts|]|] eqn:Hfile; simpl;
    [|by rewrite Hon, Hdir, Hfile..].
  destruct (Qle_bool _ _) eqn:Hage; simpl; [done|].
  intros _. by rewrite Hon, lookup_delete_eq.
Qed.

(** One call of [get_historical_data] whose source raises and which has
    nowhere to fail over to. *)
Lemma get_historical_data_last_resort fuel symbols start end_ timeframe source self name :
  fst (check_cache (hist_cache_key symbols start end_ timeframe) 24 self) = None →
  select_historical_source source self = Some name →
  historical_fails self symbols start end_ timeframe name →
  bool_decide (name = "polygon") && source_available self "yahoo" = false →
  get_historical_data (S fuel) symbols start end_ timeframe source self
  = Some (Return DataFrame_new,
          incr_cache_misses
            (snd (check_cache (hist_cache_key symbols start end_ timeframe) 24 self))).
Proof.
  intros Hmiss Hsel Hfails Hlast. cbn [get_historical_data].
  destruct (check_cache_frame (hist_cache_key symbols start end_ timeframe) 24 self)
    as (Hsrc & _).
  destruct (check_cache _ 24 self) as [c s0]; simpl in *. subst c.
  unfold select_historical_source, historical_fails, call_source,
    source_available in *. simpl.
  rewrite Hsrc, Hsel.
  destruct (match sources self !! name with
            | Some (Some feed) => feed_get_historical_data feed symbols start end_ timeframe
            | Some None => _
            | None => _
            end) as [data|e]; [done|].
  by rewrite Hlast.
Qed.

(** One call of [get_historical_data] whose source raises and which fails
    over: it goes on as a call forced to Yahoo, the miss counted. *)
Lemma get_historical_data_failover fuel symbols start end_ timeframe source self name :
  fst (check_cache (hist_cache_key symbols start end_ timeframe) 24 self) = None →
  select_historical_source source self = Some name →
  historical_fails self symbols start end_ timeframe name →
  bool_decide (name = "polygon") && source_available self "yahoo" = true →
  get_historical_data (S fuel) symbols start end_ timeframe source self
  = get_historical_data fuel symbols start end_ timeframe (Some "yahoo")
      (incr_cache_misses
         (snd (check_cache (hist_cache_key symbols start end_ timeframe) 24 self))).
Proof.
  intros Hmiss Hsel Hfails Hover. cbn [get_historical_data].
  destruct (check_cache_frame (hist_cache_key symbols start end_ timeframe) 24 self)
    as (Hsrc & _).
  destruct (check_cache _ 24 self) as [c s0]; simpl in *. subst c.
  unfold select_historical_source, historical_fails, call_source,
    source_available in *. simpl.
  rewrite Hsrc, Hsel.
  destruct (match sources self !! name with
            | Some (Some feed) => feed_get_historical_data feed symbols start end_ timeframe
            | Some None => _
            | None => _
            end) as [data|e]; [done|].
  by rewrite Hover.
Qed.

Lemma historical_fails_frame self self' symbols start end_ timeframe name :
  sources self' = sources self →
  historical_fails self symbols start end_ timeframe name →
  historical_fails self' symbols start end_ timeframe name.
Proof. unfold historical_fails, call_source. by intros ->. Qed.

(** When every source tried raises, the call returns an empty DataFrame as
    its value, and its only effect on the cache directory is that of its
    cache check. *)
Lemma get_historical_data_all_fail fuel symbols start end_ timeframe source self :
  (2 ≤ fuel)%nat →
  fst (check_cache (hist_cache_key symbols start end_ timeframe) 24 self) = None →
  historical_candidates source self ≠ [] →
  Forall (historical_fails self symbols start end_ timeframe)
    (historical_candidates source self) →
  ∃ self',
    get_historical_data fuel symbols start end_ timeframe source self
      = Some (Return DataFrame_new, self')
    ∧ cache_dir self'
      = cache_dir (snd (check_cache (hist_cache_key symbols start end_ timeframe) 24 self))
    ∧ fst (check_cache (hist_cache_key symbols start end_ timeframe) 24 self') = None.
Proof.
  intros Hfuel Hmiss Hsome Hall.
  destruct fuel as [|[|fuel]]; [lia | lia |].
  set (key := hist_cache_key symbols start end_ timeframe) in *.
  unfold historical_candidates in *.
  destruct (select_historical_source source self) as [name|] eqn:Hsel; [|done].
  apply Forall_cons in Hall as [Hname Hrest].
  destruct (bool_decide (name = "polygon") && source_available self "yahoo") eqn:Hover.
  - rewrite (get_historical_data_failover _ _ _ _ _ _ _ name) by done.
    apply Forall_cons in Hrest as [Hyahoo _].
    destruct (check_cache_frame key 24 self) as (Hsrc & _).
    pose proof (check_cache_miss_again key 24 self Hmiss) as Hagain.
    set (s1 := incr_cache_misses (snd (check_cache key 24 self))) in *.
    rewrite (get_historical_data_last_resort _ _ _ _ _ _ _ "yahoo").
    + eexists. split; [done|]. fold key s1. rewrite Hagain. simpl.
      split; [done|].
      pose proof (check_cache_miss_again key 24 s1) as Hthen.
      rewrite Hagain in Hthen. simpl in Hthen. by rewrite Hthen.
    + fold key s1. by rewrite Hagain.
    + done.
    + apply (historical_fails_frame self); [exact Hsrc | done].
    + done.
  - rewrite (get_historical_data_last_resort _ _ _ _ _ _ _ name) by done.
    eexists. split; [done|]. split; [done|].
    fold key. by rewrite check_cache_miss_again.
Qed.

(** C3 (counterexample). Polygon and Yahoo both raise on the request: the
    call returns an empty DataFrame as an ordinary value, not an error. *)
Lemma all_sources_fail_returns_empty_frame :
  historical_candidates None all_fail_manager = ["polygon"; "yahoo"]
  ∧ fst <$> get_historical_data 2 ["AAPL"] jan02 jan31 "1Day" None all_fail_manager
    = Some (Return DataFrame_new)
  ∧ is_raise (Return DataFrame_new) = false.
Proof. vm_compute. split_and!; reflexivity. Qed.

(** C3 (amended). When every source the request tries raises, the call
    returns an empty DataFrame as its value; no error reaches the caller. *)
Theorem all_sources_fail_returns_empty symbols start end_ timeframe source self :
  fst (check_cache (hist_cache_key symbols start end_ timeframe) 24 self) = None →
  historical_candidates source self ≠ [] →
  Forall (historical_fails self symbols start end_ timeframe)
    (historical_candidates source self) →
  ∀ fuel, (2 ≤ fuel)%nat →
    fst <$> get_historical_data fuel symbols start end_ timeframe source self
    = Some (Return DataFrame_new).
Proof.
  intros Hmiss Hsome Hall fuel Hfuel.
  destruct (get_historical_data_all_fail fuel symbols start end_ timeframe source self)
    as (self' & -> & _); done.
Qed.

(** C3 (instance). Polygon and Yahoo configured, both raising, empty cache. *)
Lemma all_sources_fail_returns_empty_both :
  fst <$> get_historical_data 2 ["AAPL"] jan02 jan31 "1Day" None all_fail_manager
  = Some (Return DataFrame_new).
Proof.
  apply (all_sources_fail_returns_empty ["AAPL"] jan02 jan31 "1Day" None
           all_fail_manager).
  - vm_compute; reflexivity.
  - vm_compute; discriminate.
  - repeat constructor.
  - repeat constructor.
Defined.




(** The failover of [get_historical_data] is one call deep: two levels of
    calls always return. *)
Lemma get_historical_data_returns fuel symbols start end_ timeframe source self :
  (2 ≤ fuel)%nat →
  is_Some (get_historical_data fuel symbols start end_ timeframe source self).
Proof.
  intros Hfuel. destruct fuel as [|[|fuel]]; [lia | lia |].
  cbn [get_historical_data].
  destruct (check_cache _ 24 self) as [[cached|] s0]; [done|].
  destruct (select_historical_source source _) as [name|]; [|done].
  destruct (call_source _ name _) as [data|e]; [done|].
  destruct (bool_decide (name = "polygon") && source_available _ "yahoo"); [|done].
  destruct (check_cache _ 24 _) as [[cached|] s1]; [done|].
  unfold select_historical_source, forced_source.
  change (bool_decide ("yahoo" = "")) with false. cbv iota.
  destruct (call_source _ "yahoo" _) as [data|e']; [done|].
  change (bool_decide ("yahoo" = "polygon")) with false. done.
Qed.

(** The failover of [get_latest_prices] is two calls deep; when every source
    raises on the request, the call returns an empty Series as its value. *)
Lemma get_latest_prices_all_fail fuel symbols source self :
  (3 ≤ fuel)%nat →
  is_Some (select_prices_source source self) →
  (∀ name, is_raise (call_source self name
                       (λ feed, feed_get_latest_prices feed symbols)) = true) →
  get_latest_prices fuel symbols source self = Some (Return Series_new).
Proof.
  intros Hfuel [name Hsel] Hall. destruct fuel as [|[|[|fuel]]]; [lia..|].
  assert (Hraise : ∀ n, ∃ e, call_source self n
                        (λ feed, feed_get_latest_prices feed symbols) = Raise e).
  { intros n. specialize (Hall n).
    destruct (call_source self n _) as [prices|e]; [done | by exists e]. }
  assert (Hyahoo : get_latest_prices (S fuel) symbols (Some "yahoo") self
                   = Some (Return Series_new)).
  { cbn [get_latest_prices]. unfold select_prices_source, forced_source.
    change (bool_decide ("yahoo" = "")) with false. cbv iota.
    destruct (Hraise "yahoo") as [e ->].
    change (bool_decide ("yahoo" = "alpaca")) with false.
    change (bool_decide ("yahoo" = "polygon")) with false. done. }
  assert (Hpolygon : get_latest_prices (S (S fuel)) symbols (Some "polygon") self
                     = Some (Return Series_new)).
  { cbn [get_latest_prices]. unfold select_prices_source, forced_source.
    change (bool_decide ("polygon" = "")) with false. cbv iota.
    destruct (Hraise "polygon") as [e ->].
    change (bool_decide ("polygon" = "alpaca")) with false.
    change (bool_decide ("polygon" = "polygon")) with true.
    cbn [andb].
    destruct (source_available self "yahoo"); [|done].
    cbn [get_latest_prices] in Hyahoo. exact Hyahoo. }
  cbn [get_latest_prices]. rewrite Hsel.
  destruct (Hraise name) as [e ->].
  destruct (bool_decide (name = "alpaca") && source_available self "polygon").
  - cbn [get_latest_prices] in Hpolygon. exact Hpolygon.
  - destruct (bool_decide (name = "polygon") && source_available self "yahoo");
      [|done].
    cbn [get_latest_prices] in Hyahoo. exact Hyahoo.
Qed.

End ManagerCache.

(* ===================================================================== *)
(** ** More on the Polygon feed's client                                  *)
(* ===================================================================== *)

Section PolygonClientMore.
Import PolygonDataFeed Scenarios.

(** One turn of the retry loop, by the reply it gets. *)
Lemma attempt_loop_step url params retries attempt rest s :
  attempt_loop url params retries (attempt :: rest) s =
  match reply_outcome (session s (sent s) url params) with
  | TransportError =>
      on_exception retries attempt (attempt_loop url params retries rest)
        (snd (session_get url params s))
  | Response status_code body =>
      if bool_decide (status_code = 200) then
        match body with
        | Some doc => (Return (Some doc), tracked url params s)
        | None =>
            on_exception retries attempt (attempt_loop url params retries rest)
              (tracked url params s)
        end
      else if bool_decide (status_code = 429) then
        attempt_loop url params retries rest
          (snd (time_sleep 60000 (tracked url params s)))
      else if bool_decide (500 ≤ status_code) then
        attempt_loop url params retries rest
          (snd (time_sleep (backoff attempt) (tracked url params s)))
      else (Return None, tracked url params s)
  end.
Proof.
  cbn [attempt_loop]. unfold tracked, bind, session_get. cbv zeta.
  destruct (reply_outcome _) as [|code body]; [done|].
  cbn [fst snd time_time get_call_timestamps set_call_timestamps].
  repeat case_bool_decide; try done. by destruct body.
Qed.

Lemma backoff_pos attempt : 0 < backoff attempt.
Proof.
  unfold backoff. pose proof (Z.pow_pos_nonneg 2 (Z.of_nat attempt)). lia.
Qed.

(** An induction principle for the retry loop: a property of the feed kept
    by a call, by the tracking of a response and by a sleep of positive
    length is kept by the loop. *)
Lemma attempt_loop_invariant (I : feed → Prop) url params retries :
  (∀ s, I s → I (snd (session_get url params s))) →
  (∀ s, I s → I (tracked url params s)) →
  (∀ s ms, 0 < ms → I s → I (snd (time_sleep ms s))) →
  ∀ attempts s, I s → I (snd (attempt_loop url params retries attempts s)).
Proof.
  intros Hget Htrack Hsleep.
  induction attempts as [|attempt rest IH]; intros s Hs; [done|].
  assert (Hexc : ∀ s2, I s2 →
            I (snd (on_exception retries attempt
                      (attempt_loop url params retries rest) s2))).
  { intros s2 Hs2. unfold on_exception. case_bool_decide; [|done].
    unfold bind; simpl. apply IH. apply (Hsleep s2); [apply backoff_pos | done]. }
  rewrite attempt_loop_step.
  destruct (reply_outcome _) as [|code body]; [by apply Hexc, Hget|].
  specialize (Htrack s Hs).
  repeat case_bool_decide.
  - destruct body; [done | by apply Hexc].
  - apply IH. by apply Hsleep.
  - apply IH. apply Hsleep; [apply backoff_pos | done].
  - done.
Qed.

(** *** The admission check *)

(** The admission check of a feed with a positive limit and no call recorded
    in the future never raises; it keeps exactly the calls less than 60
    seconds old, sends nothing, returns at once while the kept calls are
    below the limit and otherwise after a wait of at most 60.1 seconds. *)
Theorem enforce_rate_limit_bounded_wait s :
  0 < calls_per_minute s →
  Forall (λ ts, ts ≤ clock s) (call_timestamps s) →
  ∃ s1,
    _enforce_rate_limit s = (Return tt, s1)
    ∧ call_timestamps s1 = filter (λ ts, clock s - ts < 60000) (call_timestamps s)
    ∧ sent s1 = sent s
    ∧ clock s ≤ clock s1 ≤ clock s + 60100
    ∧ (Z.of_nat (length (call_timestamps s1)) < calls_per_minute s →
       clock s1 = clock s).
Proof.
  intros Hlimit Hpast. unfold _enforce_rate_limit, bind; simpl.
  case_bool_decide as Hfull; simpl.
  - destruct (list_min _) as [oldest|] eqn:Hmin; simpl.
    + pose proof (list_min_elem _ _ Hmin) as Hin.
      apply list_elem_of_filter in Hin as [Hyoung Hin].
      eapply Forall_forall in Hpast; [|exact Hin]. simpl in Hpast.
      case_bool_decide; simpl; eexists; (split; [done|]);
        split_and!; simpl; try done; lia.
    + destruct (filter _ _); [simpl in Hfull; lia | done].
  - eexists. split; [done|]. split_and!; simpl; try done; lia.
Qed.

(** Instance: a new free-tier feed is admitted at once. *)
Lemma enforce_rate_limit_bounded_wait_new :
  ∃ s1,
    _enforce_rate_limit (free_feed server_500) = (Return tt, s1)
    ∧ call_timestamps s1 = []
    ∧ sent s1 = 0%nat
    ∧ 0 ≤ clock s1 ≤ 60100
    ∧ (Z.of_nat (length (call_timestamps s1)) < 5 → clock s1 = 0).
Proof.
  exact (enforce_rate_limit_bounded_wait (free_feed server_500) eq_refl
           (Forall_nil_2 _)).
Defined.

(** *** The order of the recorded calls *)

Lemma StronglySorted_filter_le (P : Z → Prop) `{∀ x, Decision (P x)} l :
  StronglySorted Z.le l → StronglySorted Z.le (filter P l).
Proof.
  induction 1 as [|x l Hl IH Hx]; [constructor|].
  rewrite filter_cons. case_decide; [|done].
  constructor; [done|].
  apply Forall_forall. intros y [_ Hy]%list_elem_of_filter.
  by eapply Forall_forall in Hx.
Qed.

Lemma chronological_wait s s' :
  call_timestamps s' = call_timestamps s → clock s ≤ clock s' →
  chronological s → chronological s'.
Proof.
  intros Hts Hclock [Hsorted Hpast]. unfold chronological. rewrite Hts.
  split; [done|]. eapply Forall_impl; [exact Hpast|]. simpl. lia.
Qed.

Lemma chronological_record s s' :
  call_timestamps s' = call_timestamps s ++ [clock s'] → clock s ≤ clock s' →
  chronological s → chronological s'.
Proof.
  intros Hts Hclock [Hsorted Hpast]. unfold chronological. rewrite Hts. split.
  - apply StronglySorted_app_2; [| done | repeat constructor].
    intros x1 x2 Hx1 ->%list_elem_of_singleton.
    eapply Forall_forall in Hpast; [|exact Hx1]. simpl in Hpast. lia.
  - apply Forall_app. split; [|by apply Forall_singleton].
    eapply Forall_impl; [exact Hpast|]. simpl. lia.
Qed.

Lemma chronological_purge s :
  chronological s → chronological (snd (_enforce_rate_limit s)).
Proof.
  intros [Hsorted Hpast].
  assert (Hkept : ∀ s', call_timestamps s'
                        = filter (λ ts, clock s - ts < 60000) (call_timestamps s) →
                        clock s ≤ clock s' → chronological s').
  { intros s' Hts Hclock. unfold chronological. rewrite Hts. split.
    - by apply StronglySorted_filter_le.
    - apply Forall_forall. intros ts [_ Hin]%list_elem_of_filter.
      eapply Forall_forall in Hpast; [|exact Hin]. simpl in Hpast. lia. }
  unfold _enforce_rate_limit, bind; simpl.
  case_bool_decide; simpl; [|by apply Hkept; simpl; [|lia]].
  destruct (list_min _); simpl; [|by apply Hkept; simpl; [|lia]].
  case_bool_decide; simpl; apply Hkept; simpl; try done; lia.
Qed.

(** Whatever the replies and the retry count, a request leaves the recorded
    calls in the order they were made, with none later than the clock: the
    oldest call is the first of the list. *)
Theorem make_request_keeps_chronological url params retries s :
  chronological s →
  chronological (snd (_make_request url params retries s)).
Proof.
  intros Hs. apply chronological_purge in Hs.
  rewrite make_request_unfold.
  destruct (_enforce_rate_limit s) as [[[]|e] s1]; cbn [fst snd] in *; [|done].
  apply attempt_loop_invariant; [| | |done].
  - intros s2. apply chronological_wait; simpl; [done|lia].
  - intros s2. unfold tracked. apply chronological_record; simpl; [done|lia].
  - intros s2 ms Hms. apply chronological_wait; simpl; [done|lia].
Qed.

(** Instance: two requests of three attempts each, from a new feed. *)
Lemma make_request_keeps_chronological_twice :
  chronological after_two_requests.
Proof.
  apply (make_request_keeps_chronological aggs_url None default_retries).
  apply (make_request_keeps_chronological aggs_url None default_retries).
  split; constructor.
Defined.

(** *** What a request returns *)

(** The retry loop hands back a document only from the reply to the last
    call it made, a 200 with that body. *)
Lemma attempt_loop_document url params retries attempts : ∀ s doc s',
  attempt_loop url params retries attempts s = (Return (Some doc), s') →
  (sent s < sent s')%nat
  ∧ reply_outcome (session s (sent s' - 1)%nat url params) = Response 200 (Some doc).
Proof.
  induction attempts as [|attempt rest IH]; intros s doc s' Hrun; [done|].
  assert (Hgo : ∀ s2, sent s2 = S (sent s) → session s2 = session s →
            attempt_loop url params retries rest s2 = (Return (Some doc), s') →
            (sent s < sent s')%nat
            ∧ reply_outcome (session s (sent s' - 1)%nat url params)
              = Response 200 (Some doc)).
  { intros s2 Hsent Hsess Hrest. apply IH in Hrest as [Hlt Hreply].
    rewrite Hsess in Hreply. split; [lia | done]. }
  assert (Hexc : ∀ s2, sent s2 = S (sent s) → session s2 = session s →
            on_exception retries attempt (attempt_loop url params retries rest) s2
              = (Return (Some doc), s') →
            (sent s < sent s')%nat
            ∧ reply_outcome (session s (sent s' - 1)%nat url params)
              = Response 200 (Some doc)).
  { intros s2 Hsent Hsess. unfold on_exception. case_bool_decide; [|done].
    unfold bind; simpl. intros Hrest.
    refine (Hgo _ _ _ Hrest); [exact Hsent | exact Hsess]. }
  rewrite attempt_loop_step in Hrun.
  destruct (reply_outcome _) as [|code body] eqn:Hreply;
    [refine (Hexc _ _ _ Hrun); reflexivity|].
  repeat case_bool_decide.
  - destruct body as [doc0|]; [|refine (Hexc _ _ _ Hrun); reflexivity].
    injection Hrun as <- <-. unfold tracked; simpl.
    split; [lia|]. rewrite Nat.sub_0_r. by subst code.
  - refine (Hgo _ _ _ Hrun); reflexivity.
  - refine (Hgo _ _ _ Hrun); reflexivity.
  - done.
Qed.

(** A request returns a document only when the endpoint served it: the
    document is the body of the reply to the last call made, and that reply
    had status 200. *)
Theorem make_request_returns_served_document url params retries s doc s' :
  _make_request url params retries s = (Return (Some doc), s') →
  (sent s < sent s')%nat
  ∧ reply_outcome
      (session s (sent s' - 1)%nat url (<["apiKey" := api_key s]> (default ∅ params)))
    = Response 200 (Some doc).
Proof.
  rewrite make_request_unfold. intros Hrun.
  assert (Hadmit : sent (snd (_enforce_rate_limit s)) = sent s
                   ∧ session (snd (_enforce_rate_limit s)) = session s
                   ∧ api_key (snd (_enforce_rate_limit s)) = api_key s).
  { unfold _enforce_rate_limit, bind; simpl.
    case_bool_decide; [|done]. destruct (list_min _); [|done].
    by case_bool_decide. }
  destruct (_enforce_rate_limit s) as [[[]|e] s1]; cbn [fst snd] in *; [|done].
  destruct Hadmit as (Hsent & Hsess & Hkey).
  apply attempt_loop_document in Hrun as [Hlt Hreply].
  rewrite Hsess, Hkey in Hreply. split; [lia | done].
Qed.

(** Instance: HTTP 500 first, then 200 with the body, which is returned. *)
Lemma make_request_returns_served_document_retry :
  (0 < 2)%nat
  ∧ reply_outcome (server_500_then_200 1%nat aggs_url (<["apiKey" := "KEY"]> ∅))
    = Response 200 (Some "{}").
Proof.
  exact (make_request_returns_served_document aggs_url None default_retries
           (free_feed server_500_then_200) "{}" _ eq_refl).
Defined.

(** With a retry count of zero or less, a request sends nothing and returns
    [None]; it still passes the admission check. *)
Theorem make_request_without_attempts url params retries s :
  retries ≤ 0 →
  0 < calls_per_minute s →
  _make_request url params retries s = (Return None, snd (_enforce_rate_limit s))
  ∧ sent (snd (_make_request url params retries s)) = sent s.
Proof.
  intros Hnone Hlimit.
  assert (Hadmit : ∃ s1, _enforce_rate_limit s = (Return tt, s1) ∧ sent s1 = sent s).
  { unfold _enforce_rate_limit, bind; simpl.
    case_bool_decide as Hfull; simpl; [|by eexists].
    destruct (list_min _) eqn:Hmin; simpl.
    - case_bool_decide; simpl; by eexists.
    - destruct (filter _ _); [simpl in Hfull; lia | done]. }
  destruct Hadmit as (s1 & Hadmit & Hsent).
  rewrite !make_request_unfold, Hadmit. simpl.
  unfold range. replace (Z.to_nat retries) with 0%nat by lia. done.
Qed.

(** Instance: [retries=0] on a new free-tier feed. *)
Lemma make_request_without_attempts_zero :
  _make_request aggs_url None 0 (free_feed server_500)
    = (Return None, snd (_enforce_rate_limit (free_feed server_500)))
  ∧ sent (snd (_make_request aggs_url None 0 (free_feed server_500))) = 0%nat.
Proof.
  exact (make_request_without_attempts aggs_url None 0 (free_feed server_500)
           (Z.le_refl 0) eq_refl).
Defined.

(** *** What failing requests cost *)

Lemma pow2_succ (n : nat) : 2 ^ Z.of_nat (S n) = 2 * 2 ^ Z.of_nat n.
Proof. rewrite Nat2Z.inj_succ, Z.pow_succ_r by lia. done. Qed.

Lemma total_sleep_app tr1 tr2 :
  total_sleep (tr1 ++ tr2) = total_sleep tr1 + total_sleep tr2.
Proof.
  induction tr1 as [|e tr1 IH]; [done|].
  destruct e; simpl; rewrite IH; lia.
Qed.

(** Against an endpoint that answers 5xx to everything, the loop over the
    attempts [a, a+1, ..., a+n-1] makes [n] calls, records each of them and
    sleeps after each, [2 ** a * (2 ** n - 1)] seconds in all. *)
Lemma attempt_loop_all_server_errors url params retries : ∀ n a s,
  always_replies is_server_error s →
  ∃ tr,
    fst (attempt_loop url params retries (seq a n) s) = Return None
    ∧ ran tr s (snd (attempt_loop url params retries (seq a n) s))
    ∧ count_gets tr = n
    ∧ total_sleep tr = 1000 * 2 ^ Z.of_nat a * (2 ^ Z.of_nat n - 1)
    ∧ length (call_timestamps (snd (attempt_loop url params retries (seq a n) s)))
      = (length (call_timestamps s) + n)%nat.
Proof.
  induction n as [|n IH]; intros a s Hall.
  - exists []. simpl. split_and!; [done | apply ran_refl | done | lia | lia].
  - cbn [seq]. rewrite attempt_loop_step.
    pose proof (Hall (sent s) url params) as Hreply.
    destruct (reply_outcome _) as [|code body]; [done|]. simpl in Hreply.
    rewrite !bool_decide_eq_false_2 by lia.
    rewrite bool_decide_eq_true_2 by lia.
    set (s2 := snd (time_sleep (backoff a) (tracked url params s))).
    destruct (IH (S a) s2) as (tr2 & Hnone & Hran & Hgets & Hsleep & Hlen);
      [exact Hall|].
    exists ([EvGet] ++ [EvSleep (backoff a)] ++ tr2).
    split_and!.
    + done.
    + eapply ran_trans; [apply ran_tracked|].
      eapply ran_trans; [apply ran_sleep | exact Hran].
    + simpl. by rewrite Hgets.
    + simpl. rewrite Hsleep. unfold backoff. rewrite !pow2_succ. lia.
    + rewrite Hlen. unfold s2, tracked; simpl. rewrite length_app. simpl. lia.
Qed.

(** A request against an endpoint that answers 5xx to everything returns
    [None] after [retries] calls, each of them recorded as a call, and after
    sleeping [2 ** retries - 1] seconds in backoff: the delay doubles without
    a ceiling, and the last failure is slept on as well. *)
Theorem all_server_errors_cost url params retries s :
  always_replies is_server_error s →
  0 < calls_per_minute s →
  0 ≤ retries →
  ∃ tr,
    fst (_make_request url params retries s) = Return None
    ∧ trace (snd (_make_request url params retries s))
      = trace (snd (_enforce_rate_limit s)) ++ tr
    ∧ count_gets tr = Z.to_nat retries
    ∧ total_sleep tr = 1000 * (2 ^ retries - 1)
    ∧ length (call_timestamps (snd (_make_request url params retries s)))
      = (length (call_timestamps (snd (_enforce_rate_limit s))) + Z.to_nat retries)%nat.
Proof.
  intros Hall Hlimit Hretries. rewrite !make_request_unfold.
  assert (Hadmit : ∃ s1, _enforce_rate_limit s = (Return tt, s1)
                         ∧ session s1 = session s).
  { unfold _enforce_rate_limit, bind; simpl.
    case_bool_decide as Hfull; simpl; [|by eexists].
    destruct (list_min _) eqn:Hmin; simpl.
    - case_bool_decide; simpl; by eexists.
    - destruct (filter _ _); [simpl in Hfull; lia | done]. }
  destruct Hadmit as (s1 & -> & Hsess). cbn [fst snd].
  destruct (attempt_loop_all_server_errors url
              (<["apiKey":=api_key s1]> (default ∅ params)) retries
              (Z.to_nat retries) 0 s1)
    as (tr & Hnone & (Htrace & _ & _) & Hgets & Hsleep & Hlen).
  { intros n u ps. rewrite Hsess. apply Hall. }
  exists tr. unfold range.
  split_and!; [done | done | done | | done].
  rewrite Hsleep, Z2Nat.id by lia. simpl. lia.
Qed.

(** Instance: the default three attempts cost seven seconds of backoff. *)
Lemma all_server_errors_cost_default :
  ∃ tr,
    fst (_make_request aggs_url None 3 (free_feed server_500)) = Return None
    ∧ trace (snd (_make_request aggs_url None 3 (free_feed server_500)))
      = trace (snd (_enforce_rate_limit (free_feed server_500))) ++ tr
    ∧ count_gets tr = 3%nat
    ∧ total_sleep tr = 7000
    ∧ length (call_timestamps (snd (_make_request aggs_url None 3 (free_feed server_500))))
      = (length (call_timestamps (snd (_enforce_rate_limit (free_feed server_500)))) + 3)%nat.
Proof.
  refine (all_server_errors_cost aggs_url None 3 (free_feed server_500) _ _ _).
  - intros n u ps. simpl. lia.
  - reflexivity.
  - lia.
Defined.

(** Against an endpoint that cannot be reached, the loop over the last [n]
    attempts of [retries] makes [n] calls, records none of them, and sleeps
    between them only. *)
Lemma attempt_loop_all_transport_errors url params retries : ∀ n a s,
  always_replies is_transport_error s →
  Z.of_nat a + Z.of_nat (S n) = retries →
  ∃ tr,
    fst (attempt_loop url params retries (seq a (S n)) s) = Return None
    ∧ ran tr s (snd (attempt_loop url params retries (seq a (S n)) s))
    ∧ count_gets tr = S n
    ∧ total_sleep tr = 1000 * 2 ^ Z.of_nat a * (2 ^ Z.of_nat n - 1)
    ∧ call_timestamps (snd (attempt_loop url params retries (seq a (S n)) s))
      = call_timestamps s.
Proof.
  induction n as [|n IH]; intros a s Hall Hlast.
  - cbn [seq]. rewrite attempt_loop_step.
    pose proof (Hall (sent s) url params) as Hreply.
    destruct (reply_outcome _) as [|code body]; [|done].
    unfold on_exception. rewrite bool_decide_eq_false_2 by lia.
    exists [EvGet]. split_and!; [done | apply ran_session_get | done | simpl; lia | done].
  - remember (S n) as m eqn:Hm. cbn [seq]. rewrite attempt_loop_step.
    pose proof (Hall (sent s) url params) as Hreply.
    destruct (reply_outcome _) as [|code body]; [|done].
    unfold on_exception. rewrite bool_decide_eq_true_2 by lia.
    unfold bind at 1 2 3. cbn [fst snd time_sleep].
    set (s2 := emit (EvSleep (backoff a)) _).
    subst m.
    destruct (IH (S a) s2) as (tr2 & Hnone & Hran & Hgets & Hsleep & Hts);
      [exact Hall | lia |].
    exists ([EvGet] ++ [EvSleep (backoff a)] ++ tr2).
    split_and!.
    + done.
    + eapply ran_trans; [apply ran_session_get|].
      eapply ran_trans; [apply ran_sleep | exact Hran].
    + simpl. by rewrite Hgets.
    + simpl. rewrite Hsleep. unfold backoff. rewrite !pow2_succ. lia.
    + by rewrite Hts.
Qed.

(** A request to an endpoint that cannot be reached returns [None] after
    [retries] calls, none of which is recorded as a call for the rate window,
    and after sleeping [2 ** (retries - 1) - 1] seconds: there is no sleep
    after the last failure. *)
Theorem all_transport_errors_cost url params retries s :
  always_replies is_transport_error s →
  0 < calls_per_minute s →
  1 ≤ retries →
  ∃ tr,
    fst (_make_request url params retries s) = Return None
    ∧ trace (snd (_make_request url params retries s))
      = trace (snd (_enforce_rate_limit s)) ++ tr
    ∧ count_gets tr = Z.to_nat retries
    ∧ total_sleep tr = 1000 * (2 ^ (retries - 1) - 1)
    ∧ call_timestamps (snd (_make_request url params retries s))
      = call_timestamps (snd (_enforce_rate_limit s)).
Proof.
  intros Hall Hlimit Hretries. rewrite !make_request_unfold.
  assert (Hadmit : ∃ s1, _enforce_rate_limit s = (Return tt, s1)
                         ∧ session s1 = session s).
  { unfold _enforce_rate_limit, bind; simpl.
    case_bool_decide as Hfull; simpl; [|by eexists].
    destruct (list_min _) eqn:Hmin; simpl.
    - case_bool_decide; simpl; by eexists.
    - destruct (filter _ _); [simpl in Hfull; lia | done]. }
  destruct Hadmit as (s1 & -> & Hsess). cbn [fst snd].
  unfold range. destruct (Z.to_nat retries) as [|n] eqn:Hn; [lia|].
  destruct (attempt_loop_all_transport_errors url
              (<["apiKey":=api_key s1]> (default ∅ params)) retries n 0 s1)
    as (tr & Hnone & (Htrace & _ & _) & Hgets & Hsleep & Hts).
  { intros k u ps. rewrite Hsess. apply Hall. }
  { lia. }
  exists tr. split_and!; [done | done | done | | done].
  rewrite Hsleep. replace (retries - 1) with (Z.of_nat n) by lia. simpl. lia.
Qed.

(** Instance: the default three attempts against an unreachable endpoint
    cost three seconds of backoff and leave no call recorded. *)
Lemma all_transport_errors_cost_default :
  ∃ tr,
    fst (_make_request aggs_url None 3 (free_feed server_unreachable)) = Return None
    ∧ trace (snd (_make_request aggs_url None 3 (free_feed server_unreachable)))
      = trace (snd (_enforce_rate_limit (free_feed server_unreachable))) ++ tr
    ∧ count_gets tr = 3%nat
    ∧ total_sleep tr = 3000
    ∧ call_timestamps (snd (_make_request aggs_url None 3 (free_feed server_unreachable)))
      = call_timestamps (snd (_enforce_rate_limit (free_feed server_unreachable))).
Proof.
  refine (all_transport_errors_cost aggs_url None 3 (free_feed server_unreachable) _ _ _).
  - intros n u ps. exact I.
  - reflexivity.
  - lia.
Defined.

(** *** The first reply *)

(** When the first reply to a request is a 200 with a document, the request
    returns that document after this one call; when it is any other status
    below 500 except 429, the request returns [None] after this one call. In
    both cases the call is recorded and nothing is slept after the admission
    check. *)
Theorem first_reply_decides url params retries s code body :
  0 < calls_per_minute s →
  1 ≤ retries →
  reply_outcome
    (session s (sent s) url (<["apiKey" := api_key s]> (default ∅ params)))
    = Response code body →
  let admitted := snd (_enforce_rate_limit s) in
  let after := tracked url (<["apiKey" := api_key s]> (default ∅ params)) admitted in
  sent after = S (sent s)
  ∧ call_timestamps after = call_timestamps admitted ++ [clock after]
  ∧ (∀ doc, code = 200 → body = Some doc →
       _make_request url params retries s = (Return (Some doc), after))
  ∧ (code ≠ 200 → code ≠ 429 → code < 500 →
       _make_request url params retries s = (Return None, after)).
Proof.
  intros Hlimit Hretries Hreply admitted after. subst admitted after.
  assert (Hadmit : ∃ s1, _enforce_rate_limit s = (Return tt, s1)
                         ∧ session s1 = session s ∧ sent s1 = sent s
                         ∧ api_key s1 = api_key s).
  { unfold _enforce_rate_limit, bind; simpl.
    case_bool_decide as Hfull; simpl; [|by eexists].
    destruct (list_min _) eqn:Hmin; simpl.
    - case_bool_decide; simpl; by eexists.
    - destruct (filter _ _); [simpl in Hfull; lia | done]. }
  destruct Hadmit as (s1 & Hadmit & Hsess & Hsent & Hkey).
  rewrite !make_request_unfold, Hadmit. cbn [fst snd]. rewrite Hkey.
  unfold range. destruct (Z.to_nat retries) as [|n] eqn:Hn; [lia|].
  cbn [seq]. rewrite attempt_loop_step, Hsess, Hsent, Hreply.
  split_and!.
  - unfold tracked; simpl. by rewrite Hsent.
  - unfold tracked; simpl. done.
  - intros doc -> ->. by rewrite bool_decide_eq_true_2.
  - intros H200 H429 H500. by rewrite !bool_decide_eq_false_2 by lia.
Qed.

(** Instance: a healthy endpoint, and one that answers 404. *)
Lemma first_reply_decides_ok_and_404 :
  fst (_make_request aggs_url None 3 (free_feed server_ok)) = Return (Some "{}")
  ∧ fst (_make_request aggs_url None 3 (free_feed server_404)) = Return None.
Proof.
  split.
  - pose proof (first_reply_decides aggs_url None 3 (free_feed server_ok) 200
                  (Some "{}") eq_refl ltac:(lia) eq_refl) as (_ & _ & Hok & _).
    by rewrite (Hok "{}" eq_refl eq_refl).
  - pose proof (first_reply_decides aggs_url None 3 (free_feed server_404) 404
                  None eq_refl ltac:(lia) eq_refl) as (_ & _ & _ & Hstop).
    rewrite Hstop; [done | lia | lia | lia].
Defined.

End PolygonClientMore.

(* ===================================================================== *)
(** ** More on the manager's cache                                        *)
(* ===================================================================== *)

Section ManagerCacheMore.
Import UnifiedDataManager Scenarios.

(** *** Freshness in microseconds *)

(** A record is fresh for a maximum age of [p/q] hours exactly when its age
    in microseconds, times [q], is at most [p] hours in microseconds. *)
Lemma fresh_iff_microseconds now_ timestamp (p : Z) (q : positive) :
  Qle_bool (age_hours now_ timestamp) (p # q) = true
  ↔ (now_ - timestamp) * Z.pos q ≤ p * 3600000000.
Proof.
  rewrite Qle_bool_iff. unfold age_hours, Qle, Qdiv, Qmult, Qinv, inject_Z.
  simpl. lia.
Qed.

(** The three lifetimes the manager uses, read in microseconds: a stored
    record is served to [get_historical_data] up to 24 hours of age, to
    [get_crypto_data] up to one hour, and to [get_options_chain] up to 298.8
    seconds (0.083 hours). *)
Theorem cache_lifetimes key self files data timestamp :
  cache_dir self = Some files →
  files !! cache_path key = Some (Pickled data timestamp) →
  (fst (_load_from_cache key 24 self) = Some data
     ↔ now self - timestamp ≤ 86400000000)
  ∧ (fst (_load_from_cache key 1 self) = Some data
     ↔ now self - timestamp ≤ 3600000000)
  ∧ (fst (_load_from_cache key (83 # 1000) self) = Some data
     ↔ now self - timestamp ≤ 298800000).
Proof.
  intros Hdir Hfile.
  assert (Hserve : ∀ p q,
            fst (_load_from_cache key (p # q) self) = Some data
            ↔ (now self - timestamp) * Z.pos q ≤ p * 3600000000).
  { intros p q. rewrite <- fresh_iff_microseconds.
    unfold _load_from_cache. rewrite Hdir, Hfile.
    destruct (Qle_bool _ _); simpl; split; done. }
  split_and!.
  - rewrite (Hserve 24 1%positive). lia.
  - rewrite (Hserve 1 1%positive). lia.
  - rewrite (Hserve 83 1000%positive). lia.
Qed.

(** Instance: the record of the stale scenario is 25 hours old. *)
Lemma cache_lifetimes_stale :
  (fst (_load_from_cache aapl_key 24 stale_all_fail_manager) = Some spy_rows
     ↔ 25 * hour_us ≤ 86400000000)
  ∧ (fst (_load_from_cache aapl_key 1 stale_all_fail_manager) = Some spy_rows
     ↔ 25 * hour_us ≤ 3600000000)
  ∧ (fst (_load_from_cache aapl_key (83 # 1000) stale_all_fail_manager) = Some spy_rows
     ↔ 25 * hour_us ≤ 298800000).
Proof.
  exact (cache_lifetimes aapl_key stale_all_fail_manager stale_files spy_rows
           (75 * hour_us) eq_refl eq_refl).
Defined.

(** *** Saving and loading *)

Lemma append_suffix_inj (suffix s1 s2 : string) :
  s1 +:+ suffix = s2 +:+ suffix → s1 = s2.
Proof.
  assert (Hlen : ∀ a b, String.length (a +:+ b)
                        = (String.length a + String.length b)%nat).
  { intros a b. induction a as [|c a IH]; [done|].
    change (S (String.length (a +:+ b))
            = S (String.length a + String.length b)). by rewrite IH. }
  revert s2. induction s1 as [|c1 s1 IH]; intros [|c2 s2] Heq.
  - done.
  - apply (f_equal String.length) in Heq. rewrite !Hlen in Heq. simpl in Heq. lia.
  - apply (f_equal String.length) in Heq. rewrite !Hlen in Heq. simpl in Heq. lia.
  - change (String c1 (s1 +:+ suffix) = String c2 (s2 +:+ suffix)) in Heq.
    injection Heq as -> Heq. f_equal. by apply IH.
Qed.

(** Different keys are stored in different files. *)
Lemma cache_path_inj key1 key2 : cache_path key1 = cache_path key2 → key1 = key2.
Proof. apply append_suffix_inj. Qed.

(** What is saved is what is loaded, for as long as it is fresh: a record
    saved under a key is served back unchanged when looked up with a maximum
    age of [p/q] hours that the time elapsed since the save does not exceed;
    past that age the lookup misses and removes the file. *)
Theorem save_load_round_trip key data self files elapsed (p : Z) (q : positive) :
  cache_dir self = Some files →
  let later := advance elapsed (_save_to_cache key data self) in
  (elapsed * Z.pos q ≤ p * 3600000000 →
     _load_from_cache key (p # q) later = (Some data, later))
  ∧ (p * 3600000000 < elapsed * Z.pos q →
       fst (_load_from_cache key (p # q) later) = None
       ∧ cache_entries (snd (_load_from_cache key (p # q) later)) !! cache_path key
         = None).
Proof.
  intros Hdir later. subst later.
  unfold _save_to_cache, _load_from_cache. rewrite Hdir. simpl.
  rewrite lookup_insert_eq.
  pose proof (fresh_iff_microseconds (now self + elapsed) (now self) p q) as Hfresh.
  replace (now self + elapsed - now self) with elapsed in Hfresh by lia.
  split; intros Hage.
  - apply Hfresh in Hage. by rewrite Hage.
  - destruct (Qle_bool _ _) eqn:Hb; [pose proof (proj1 Hfresh eq_refl); lia|].
    split; [done|]. unfold cache_entries; simpl. apply lookup_delete_eq.
Qed.

(** Instance: saved, then loaded 23 hours later with the 24-hour limit. *)
Lemma save_load_round_trip_23h :
  _load_from_cache aapl_key 24
    (advance (23 * hour_us) (_save_to_cache aapl_key spy_rows all_fail_manager))
  = (Some spy_rows,
     advance (23 * hour_us) (_save_to_cache aapl_key spy_rows all_fail_manager)).
Proof.
  refine (proj1 (save_load_round_trip aapl_key spy_rows all_fail_manager ∅
                   (23 * hour_us) 24 1 eq_refl) _).
  vm_compute. discriminate.
Defined.

(** Saving under one key leaves every other key as it was: its file, and
    what a lookup of it returns. A second save under the same key replaces
    the first. *)
Theorem save_to_cache_is_local key data self :
  (∀ other, other ≠ key →
     cache_entries (_save_to_cache key data self) !! cache_path other
       = cache_entries self !! cache_path other
     ∧ ∀ max_age_hours,
         fst (_load_from_cache other max_age_hours (_save_to_cache key data self))
         = fst (_load_from_cache other max_age_hours self))
  ∧ (∀ newer,
       _save_to_cache key newer (_save_to_cache key data self)
       = _save_to_cache key newer self).
Proof.
  split.
  - intros other Hother.
    assert (Hpath : cache_path key ≠ cache_path other).
    { intros Heq. by apply cache_path_inj in Heq. }
    unfold _save_to_cache, _load_from_cache, cache_entries.
    destruct (cache_dir self) as [files|] eqn:Hdir; simpl;
      [|by rewrite Hdir].
    rewrite lookup_insert_ne by done. split; [done|]. intros max_age_hours.
    destruct (files !! cache_path other) as [[d ts|]|]; [|done..].
    by destruct (Qle_bool _ _).
  - intros newer. unfold _save_to_cache.
    destruct (cache_dir self) as [files|] eqn:Hdir; simpl; [|by rewrite Hdir].
    unfold set_cache_dir; simpl. by rewrite insert_insert_eq.
Qed.

(** Instance: saving MSFT's data does not disturb AAPL's record. *)
Lemma save_to_cache_is_local_msft :
  cache_entries (_save_to_cache "hist_MSFT" spy_rows no_polygon_manager)
    !! cache_path aapl_key
  = cache_entries no_polygon_manager !! cache_path aapl_key.
Proof.
  refine (proj1 (proj1 (save_to_cache_is_local "hist_MSFT" spy_rows no_polygon_manager)
                   aapl_key _)).
  vm_compute. discriminate.
Defined.

(** *** The ways a historical-data request can end *)

(** A hit leaves the manager as it is. *)
Lemma check_cache_hit key max_age_hours self data :
  fst (check_cache key max_age_hours self) = Some data →
  check_cache key max_age_hours self = (Some data, self).
Proof.
  unfold check_cache, _load_from_cache.
  destruct (enable_caching self); [|done].
  destruct (cache_dir self) as [files|]; [|done].
  destruct (files !! cache_path key) as [[d ts|]|]; [|done..].
  destruct (Qle_bool _ _); [|done]. simpl. by intros [= ->].
Qed.

(** Every call with two levels of calls to spend returns, in one of these
    ways: a hit, counted as such; or a miss counted once (one source tried)
    or twice (Polygon, then Yahoo), which ends with the data of the source
    that answered, stored by [cache_result], or with an empty DataFrame, or
    with the exception for the lack of sources. *)
Lemma get_historical_data_shape fuel symbols start end_ timeframe source self :
  (2 ≤ fuel)%nat →
  ∃ r self',
    get_historical_data fuel symbols start end_ timeframe source self = Some (r, self')
    ∧ ((∃ data,
          fst (check_cache (hist_cache_key symbols start end_ timeframe) 24 self)
            = Some data
          ∧ r = Return data ∧ self' = incr_cache_hits self)
       ∨ (fst (check_cache (hist_cache_key symbols start end_ timeframe) 24 self) = None
          ∧ ∃ counted,
              (counted = incr_cache_misses
                           (snd (check_cache (hist_cache_key symbols start end_ timeframe)
                                   24 self))
               ∨ counted = incr_cache_misses (incr_cache_misses
                           (snd (check_cache (hist_cache_key symbols start end_ timeframe)
                                   24 self))))
              ∧ ((self' = counted
                  ∧ (r = Return DataFrame_new
                     ∨ r = Raise (RuntimeError "No data sources available")))
                 ∨ ∃ data,
                     r = Return data
                     ∧ self' = cache_result (hist_cache_key symbols start end_ timeframe)
                                 data counted))).
Proof.
  intros Hfuel. destruct fuel as [|[|fuel]]; [lia | lia |].
  set (key := hist_cache_key symbols start end_ timeframe).
  cbn [get_historical_data]. fold key.
  destruct (check_cache key 24 self) as [[cached|] s0] eqn:Hcheck.
  { pose proof (check_cache_hit key 24 self cached) as Hhit.
    rewrite Hcheck in Hhit. specialize (Hhit eq_refl). injection Hhit as ->.
    eexists _, _. split; [done|]. left. by exists cached. }
  pose proof (check_cache_miss_again key 24 self) as Hagain.
  rewrite Hcheck in Hagain. specialize (Hagain eq_refl). cbn [fst snd] in *.
  set (m1 := incr_cache_misses s0) in *.
  destruct (select_historical_source source m1) as [name|].
  2:{ eexists _, _. split; [done|]. right. split; [done|].
      exists m1. split; [by left|]. left. split; [done | by right]. }
  destruct (call_source m1 name _) as [data|e].
  { eexists _, _. split; [done|]. right. split; [done|].
    exists m1. split; [by left|]. right. by exists data. }
  destruct (bool_decide (name = "polygon") && source_available m1 "yahoo").
  2:{ eexists _, _. split; [done|]. right. split; [done|].
      exists m1. split; [by left|]. left. split; [done | by left]. }
  rewrite Hagain.
  unfold select_historical_source, forced_source.
  change (bool_decide ("yahoo" = "")) with false. cbv iota.
  destruct (call_source _ "yahoo" _) as [data|e'].
  { eexists _, _. split; [done|]. right. split; [done|].
    exists (incr_cache_misses m1). split; [by right|]. right. by exists data. }
  change (bool_decide ("yahoo" = "polygon")) with false. cbn [andb].
  eexists _, _. split; [done|]. right. split; [done|].
  exists (incr_cache_misses m1). split; [by right|]. left. split; [done | by left].
Qed.

(** What a cache check does to the files: nothing to the files of other
    keys; the key's own file stays or goes. *)
Lemma check_cache_entries key max_age_hours self :
  (∀ file_name, file_name ≠ cache_path key →
     cache_entries (snd (check_cache key max_age_hours self)) !! file_name
     = cache_entries self !! file_name)
  ∧ (cache_entries (snd (check_cache key max_age_hours self)) !! cache_path key
       = cache_entries self !! cache_path key
     ∨ cache_entries (snd (check_cache key max_age_hours self)) !! cache_path key
       = None).
Proof.
  destruct (check_cache_dir key max_age_hours self)
    as [Hsame | (files & d & ts & _ & Hfiles & _ & _ & Hevict)];
    unfold cache_entries.
  - rewrite Hsame. by split; [|left].
  - rewrite Hevict, Hfiles. simpl. split.
    + intros file_name Hne. by rewrite lookup_delete_ne.
    + right. apply lookup_delete_eq.
Qed.

(** What [cache_result] does to the files: it writes the key's own file, and
    only for data that are not empty. *)
Lemma cache_result_entries key data self :
  (∀ file_name, file_name ≠ cache_path key →
     cache_entries (cache_result key data self) !! file_name
     = cache_entries self !! file_name)
  ∧ (cache_entries (cache_result key data self) !! cache_path key
       = cache_entries self !! cache_path key
     ∨ (df_empty data = false
        ∧ cache_entries (cache_result key data self) !! cache_path key
          = Some (Pickled data (now self)))).
Proof.
  unfold cache_result, _save_to_cache, cache_entries.
  destruct (enable_caching self); simpl; [|by split; [|left]].
  destruct (df_empty data) eqn:Hempty; simpl; [by split; [|left]|].
  destruct (cache_dir self) as [files|] eqn:Hdir; simpl.
  - split.
    + intros file_name Hne. by rewrite lookup_insert_ne.
    + right. split; [done|]. apply lookup_insert_eq.
  - rewrite Hdir. by split; [|left].
Qed.

Lemma cache_result_frame key data self :
  sources (cache_result key data self) = sources self
  ∧ enable_caching (cache_result key data self) = enable_caching self
  ∧ cache_hits (cache_result key data self) = cache_hits self
  ∧ cache_misses (cache_result key data self) = cache_misses self
  ∧ now (cache_result key data self) = now self.
Proof.
  unfold cache_result, _save_to_cache.
  destruct (enable_caching self && negb (df_empty data)); [|done].
  by destruct (cache_dir self).
Qed.

(** A historical-data request touches one file of the cache at most, the
    one of its own key: every other file is as before; the key's file is as
    before, or gone (an expired record), or holds the data just returned,
    which are not empty, stamped with the present time. Sources, caching
    switch and clock are unchanged. *)
Theorem get_historical_data_touches_own_file fuel symbols start end_ timeframe
    source self r self' :
  (2 ≤ fuel)%nat →
  get_historical_data fuel symbols start end_ timeframe source self = Some (r, self') →
  (∀ file_name, file_name ≠ cache_path (hist_cache_key symbols start end_ timeframe) →
     cache_entries self' !! file_name = cache_entries self !! file_name)
  ∧ (cache_entries self' !! cache_path (hist_cache_key symbols start end_ timeframe)
       = cache_entries self !! cache_path (hist_cache_key symbols start end_ timeframe)
     ∨ cache_entries self' !! cache_path (hist_cache_key symbols start end_ timeframe)
       = None
     ∨ ∃ data,
         r = Return data ∧ df_empty data = false
         ∧ cache_entries self' !! cache_path (hist_cache_key symbols start end_ timeframe)
           = Some (Pickled data (now self)))
  ∧ sources self' = sources self
  ∧ enable_caching self' = enable_caching self
  ∧ now self' = now self.
Proof.
  intros Hfuel Hrun.
  set (key := hist_cache_key symbols start end_ timeframe) in *.
  destruct (get_historical_data_shape fuel symbols start end_ timeframe source self Hfuel)
    as (r0 & s0 & Hshape & Hcases).
  rewrite Hrun in Hshape. injection Hshape as <- <-. fold key in Hcases.
  destruct (check_cache_entries key 24 self) as [Hothers Hown].
  destruct (check_cache_frame key 24 self) as (Hsrc & Hon & _ & _ & Hnow).
  destruct Hcases as [(data & Hhit & -> & ->) | (Hmiss & counted & Hcounted & Hend)].
  { split_and!; [done | by left | done..]. }
  assert (Hcounted_entries : cache_entries counted
                             = cache_entries (snd (check_cache key 24 self))).
  { by destruct Hcounted as [-> | ->]. }
  assert (Hcounted_frame : sources counted = sources self
                           ∧ enable_caching counted = enable_caching self
                           ∧ now counted = now self).
  { by destruct Hcounted as [-> | ->]. }
  destruct Hcounted_frame as (Hsrc' & Hon' & Hnow').
  destruct Hend as [[-> _] | (data & -> & ->)].
  - rewrite Hcounted_entries. split_and!; [done | | done..].
    destruct Hown as [-> | ->]; [by left | right; by left].
  - destruct (cache_result_entries key data counted) as [Hres_others Hres_own].
    destruct (cache_result_frame key data counted) as (-> & -> & _ & _ & ->).
    split_and!; [| | done..].
    + intros file_name Hne. rewrite Hres_others, Hcounted_entries by done.
      by apply Hothers.
    + destruct Hres_own as [-> | [Hfull ->]].
      * rewrite Hcounted_entries.
        destruct Hown as [-> | ->]; [by left | right; by left].
      * right. right. exists data. by rewrite Hnow'.
Qed.

(** Instance: the SPY request of a new manager writes SPY's file. *)
Lemma get_historical_data_touches_own_file_spy :
  ∃ r self',
    get_historical_data 2 ["SPY"] jan02 jan31 "1Day" None new_manager = Some (r, self')
    ∧ cache_entries self' !! cache_path aapl_key
      = cache_entries new_manager !! cache_path aapl_key.
Proof.
  destruct (get_historical_data 2 ["SPY"] jan02 jan31 "1Day" None new_manager)
    as [[r self']|] eqn:Hrun; [|vm_compute in Hrun; discriminate].
  exists r, self'. split; [reflexivity|].
  refine (proj1 (get_historical_data_touches_own_file 2 ["SPY"] jan02 jan31 "1Day"
                   None new_manager r self' _ Hrun) _ _).
  - repeat constructor.
  - vm_compute. discriminate.
Defined.

(** *** Counting hits and misses *)

(** Every call is counted: a hit adds one to the hit counter and serves the
    cached data; a miss adds one to the miss counter for each source tried,
    one or two, and leaves the hit counter alone. So the total the
    statistics report grows by one or by two. *)
Theorem get_historical_data_is_counted fuel symbols start end_ timeframe source
    self r self' :
  (2 ≤ fuel)%nat →
  get_historical_data fuel symbols start end_ timeframe source self = Some (r, self') →
  match fst (check_cache (hist_cache_key symbols start end_ timeframe) 24 self) with
  | Some data =>
      r = Return data
      ∧ cache_hits self' = cache_hits self + 1
      ∧ cache_misses self' = cache_misses self
  | None =>
      cache_hits self' = cache_hits self
      ∧ (cache_misses self' = cache_misses self + 1
         ∨ cache_misses self' = cache_misses self + 2)
  end
  ∧ 1 ≤ stats_total_requests (get_cache_stats self')
        - stats_total_requests (get_cache_stats self) ≤ 2.
Proof.
  intros Hfuel Hrun.
  set (key := hist_cache_key symbols start end_ timeframe) in *.
  destruct (get_historical_data_shape fuel symbols start end_ timeframe source self Hfuel)
    as (r0 & s0 & Hshape & Hcases).
  rewrite Hrun in Hshape. injection Hshape as <- <-. fold key in Hcases.
  destruct (check_cache_frame key 24 self) as (_ & _ & Hhits & Hmisses & _).
  unfold get_cache_stats; simpl.
  destruct Hcases as [(data & Hhit & -> & ->) | (Hmiss & counted & Hcounted & Hend)].
  { rewrite Hhit. simpl. split; [done | lia]. }
  rewrite Hmiss.
  assert (Hcount : cache_hits counted = cache_hits self
                   ∧ (cache_misses counted = cache_misses self + 1
                      ∨ cache_misses counted = cache_misses self + 2)).
  { destruct Hcounted as [-> | ->]; simpl; rewrite Hhits, Hmisses;
      (split; [done|]); [left | right]; lia. }
  assert (Hself' : cache_hits self' = cache_hits counted
                   ∧ cache_misses self' = cache_misses counted).
  { destruct Hend as [[-> _] | (data & _ & ->)]; [done|].
    by destruct (cache_result_frame key data counted) as (_ & _ & -> & -> & _). }
  destruct Hself' as [-> ->]. destruct Hcount as [-> Hm].
  split; [done|]. lia.
Qed.

(** Instance: the failed request of the all-fail scenario counts two misses. *)
Lemma get_historical_data_is_counted_failover :
  ∃ r self',
    get_historical_data 2 ["AAPL"] jan02 jan31 "1Day" None all_fail_manager
      = Some (r, self')
    ∧ 1 ≤ stats_total_requests (get_cache_stats self')
          - stats_total_requests (get_cache_stats all_fail_manager) ≤ 2.
Proof.
  destruct (get_historical_data 2 ["AAPL"] jan02 jan31 "1Day" None all_fail_manager)
    as [[r self']|] eqn:Hrun; [|vm_compute in Hrun; discriminate].
  exists r, self'. split; [reflexivity|].
  refine (proj2 (get_historical_data_is_counted 2 ["AAPL"] jan02 jan31 "1Day"
                   None all_fail_manager r self' _ Hrun)).
  repeat constructor.
Defined.

(** With counters that are not negative, as they are from [__init__] on, the
    statistics are consistent: the total is hits plus misses, the hit rate
    lies between 0 and 1, it is 0 when nothing was requested yet (no division
    by zero), and otherwise hit rate times total gives back the hits. *)
Theorem get_cache_stats_consistent self :
  0 ≤ cache_hits self →
  0 ≤ cache_misses self →
  let stats := get_cache_stats self in
  stats_total_requests stats = stats_cache_hits stats + stats_cache_misses stats
  ∧ (0 <= stats_hit_rate stats)%Q
  ∧ (stats_hit_rate stats <= 1)%Q
  ∧ (stats_total_requests stats = 0 → stats_hit_rate stats = 0%Q)
  ∧ (0 < stats_total_requests stats →
     (stats_hit_rate stats * inject_Z (stats_total_requests stats)
      == inject_Z (stats_cache_hits stats))%Q).
Proof.
  intros Hhits Hmisses. unfold get_cache_stats. cbv zeta. simpl.
  case_bool_decide as Htotal.
  - destruct (cache_hits self + cache_misses self) as [|total|total] eqn:Hsum;
      [lia | | lia].
    split_and!; [done | | | lia |].
    + unfold Qle, Qdiv, Qmult, Qinv, inject_Z; simpl. lia.
    + unfold Qle, Qdiv, Qmult, Qinv, inject_Z; simpl. lia.
    + intros _. unfold Qeq, Qdiv, Qmult, Qinv, inject_Z; simpl. lia.
  - split_and!; [done | done | done | done | lia].
Qed.

(** Instance: after the failed request of the all-fail scenario. *)
Lemma get_cache_stats_consistent_new :
  stats_total_requests (get_cache_stats new_manager)
    = stats_cache_hits (get_cache_stats new_manager)
      + stats_cache_misses (get_cache_stats new_manager)
  ∧ (0 <= stats_hit_rate (get_cache_stats new_manager))%Q
  ∧ (stats_hit_rate (get_cache_stats new_manager) <= 1)%Q
  ∧ (stats_total_requests (get_cache_stats new_manager) = 0 →
     stats_hit_rate (get_cache_stats new_manager) = 0%Q)
  ∧ (0 < stats_total_requests (get_cache_stats new_manager) →
     (stats_hit_rate (get_cache_stats new_manager)
        * inject_Z (stats_total_requests (get_cache_stats new_manager))
      == inject_Z (stats_cache_hits (get_cache_stats new_manager)))%Q).
Proof.
  exact (get_cache_stats_consistent new_manager (Z.le_refl 0) (Z.le_refl 0)).
Defined.

(** *** Hits *)

(** The hit path of [get_historical_data]. *)
Lemma get_historical_data_hit fuel symbols start end_ timeframe source self files
    data timestamp :
  enable_caching self = true →
  cache_dir self = Some files →
  files !! cache_path (hist_cache_key symbols start end_ timeframe)
    = Some (Pickled data timestamp) →
  now self - timestamp ≤ 86400000000 →
  (1 ≤ fuel)%nat →
  get_historical_data fuel symbols start end_ timeframe source self
  = Some (Return data, incr_cache_hits self).
Proof.
  intros Hon Hdir Hfile Hage Hfuel. destruct fuel as [|fuel]; [lia|].
  cbn [get_historical_data]. unfold check_cache, _load_from_cache.
  rewrite Hon, Hdir, Hfile.
  assert (Hfresh : Qle_bool (age_hours (now self) timestamp) 24 = true).
  { apply (fresh_iff_microseconds _ _ 24 1). lia. }
  by rewrite Hfresh.
Qed.

(** A fresh record is served whatever the sources: with caching on, a
    request whose file holds a record at most 24 hours old returns the
    record's data and counts a hit, with any forced source and even with no
    source configured; nothing else changes. *)
Theorem cached_data_served_without_sources fuel symbols start end_ timeframe
    source self files data timestamp :
  enable_caching self = true →
  cache_dir self = Some files →
  files !! cache_path (hist_cache_key symbols start end_ timeframe)
    = Some (Pickled data timestamp) →
  now self - timestamp ≤ 86400000000 →
  (1 ≤ fuel)%nat →
  get_historical_data fuel symbols start end_ timeframe source self
  = Some (Return data, incr_cache_hits self).
Proof. apply get_historical_data_hit. Qed.

(** Instance: the fresh AAPL record is served by a manager forced to a
    source that does not exist. *)
Lemma cached_data_served_without_sources_forced :
  get_historical_data 1 ["AAPL"] jan02 jan31 "1Day" (Some "bloomberg")
    no_polygon_manager
  = Some (Return spy_rows, incr_cache_hits no_polygon_manager).
Proof.
  refine (cached_data_served_without_sources 1 ["AAPL"] jan02 jan31 "1Day"
            (Some "bloomberg") no_polygon_manager fresh_files spy_rows
            (99 * hour_us) eq_refl eq_refl eq_refl _ _).
  - vm_compute. discriminate.
  - repeat constructor.
Defined.

(** Asking twice: when a request that missed the cache returned data that
    are not empty, with caching on and the cache directory in place, the
    same request made again within 24 hours returns the same data from the
    cache and counts a hit. The days of start and end make the request, not
    their times of day, and the forced source plays no part. *)
Theorem fetch_then_hit fuel symbols start end_ timeframe source self data self'
    elapsed fuel' start' end' source' :
  enable_caching self = true →
  is_Some (cache_dir self) →
  fst (check_cache (hist_cache_key symbols start end_ timeframe) 24 self) = None →
  (2 ≤ fuel)%nat →
  get_historical_data fuel symbols start end_ timeframe source self
    = Some (Return data, self') →
  df_empty data = false →
  elapsed ≤ 86400000000 →
  datetime_date start' = datetime_date start →
  datetime_date end' = datetime_date end_ →
  (1 ≤ fuel')%nat →
  get_historical_data fuel' symbols start' end' timeframe source' (advance elapsed self')
  = Some (Return data, incr_cache_hits (advance elapsed self')).
Proof.
  intros Hon [files Hdir] Hmiss Hfuel Hrun Hfull Helapsed Hstart Hend Hfuel'.
  set (key := hist_cache_key symbols start end_ timeframe) in *.
  destruct (get_historical_data_shape fuel symbols start end_ timeframe source self Hfuel)
    as (r0 & s0 & Hshape & Hcases).
  rewrite Hrun in Hshape. injection Hshape as <- <-. fold key in Hcases.
  destruct Hcases as [(d & Hhit & _) | (_ & counted & Hcounted & Hend')];
    [congruence|].
  destruct (check_cache_frame key 24 self) as (_ & Hon0 & _ & _ & Hnow0).
  assert (Hdir0 : is_Some (cache_dir (snd (check_cache key 24 self)))).
  { destruct (check_cache_dir key 24 self)
      as [-> | (fs & d & ts & _ & _ & _ & _ & ->)]; by eauto. }
  assert (Hc : enable_caching counted = true ∧ now counted = now self
               ∧ is_Some (cache_dir counted)).
  { destruct Hcounted as [-> | ->]; simpl; by rewrite Hon0, Hnow0, Hon. }
  destruct Hc as (Honc & Hnowc & [filesc Hdirc]).
  destruct Hend' as [[-> [Hr | Hr]] | (d & Hr & ->)].
  - injection Hr as ->. done.
  - done.
  - injection Hr as <-.
    assert (Hkey : hist_cache_key symbols start' end' timeframe = key).
    { unfold key, hist_cache_key. by rewrite Hstart, Hend. }
    eapply (get_historical_data_hit fuel' symbols start' end' timeframe
              source' _ (<[cache_path key := Pickled data (now counted)]> filesc)
              data (now counted)).
    + unfold cache_result. rewrite Honc, Hfull. simpl.
      unfold _save_to_cache. by rewrite Hdirc.
    + unfold cache_result. rewrite Honc, Hfull. simpl.
      unfold _save_to_cache. by rewrite Hdirc.
    + rewrite Hkey. apply lookup_insert_eq.
    + unfold cache_result. rewrite Honc, Hfull. simpl.
      unfold _save_to_cache. rewrite Hdirc. simpl. lia.
    + done.
Qed.

(** Instance: a new manager fetches SPY, and is asked again an hour later. *)
Lemma fetch_then_hit_spy :
  ∃ fetched,
    get_historical_data 2 ["SPY"] jan02 jan31 "1Day" None new_manager
      = Some (Return spy_rows, fetched)
    ∧ get_historical_data 1 ["SPY"] jan02_noon jan31 "1Day" None
        (advance hour_us fetched)
      = Some (Return spy_rows, incr_cache_hits (advance hour_us fetched)).
Proof.
  destruct (get_historical_data 2 ["SPY"] jan02 jan31 "1Day" None new_manager)
    as [[r fetched]|] eqn:Hrun; [|vm_compute in Hrun; discriminate].
  assert (Hr : r = Return spy_rows).
  { vm_compute in Hrun. by injection Hrun as <- _. }
  subst r. exists fetched. split; [reflexivity|].
  refine (fetch_then_hit 2 ["SPY"] jan02 jan31 "1Day" None new_manager spy_rows
            fetched hour_us 1 jan02_noon jan31 None eq_refl _ _ _ Hrun eq_refl _
            eq_refl eq_refl _).
  - by eexists.
  - vm_compute. reflexivity.
  - repeat constructor.
  - vm_compute. discriminate.
  - repeat constructor.
Defined.

(** *** The order of the sources *)

(** One call of [get_historical_data] whose source answers. *)
Lemma get_historical_data_answer fuel symbols start end_ timeframe source self name data :
  fst (check_cache (hist_cache_key symbols start end_ timeframe) 24 self) = None →
  select_historical_source source self = Some name →
  call_source self name
    (λ feed, feed_get_historical_data feed symbols start end_ timeframe) = Return data →
  get_historical_data (S fuel) symbols start end_ timeframe source self
  = Some (Return data,
          cache_result (hist_cache_key symbols start end_ timeframe) data
            (incr_cache_misses
               (snd (check_cache (hist_cache_key symbols start end_ timeframe) 24 self)))).
Proof.
  intros Hmiss Hsel Hanswer. cbn [get_historical_data].
  destruct (check_cache_frame (hist_cache_key symbols start end_ timeframe) 24 self)
    as (Hsrc & _).
  destruct (check_cache _ 24 self) as [c s0]; simpl in *. subst c.
  unfold select_historical_source, call_source, source_available in *. simpl.
  rewrite Hsrc, Hsel. by rewrite Hanswer.
Qed.

(** With no source forced, a request that misses the cache asks Polygon
    first and Yahoo second: Polygon's answer is returned when Polygon is
    there and answers, after one miss; Yahoo's when Polygon raises, after two
    misses, or when Polygon is not there, after one; an empty DataFrame when
    Polygon raises and Yahoo is not there; and RuntimeError, the miss
    counted, when neither is there. *)
Theorem historical_source_order fuel symbols start end_ timeframe source self :
  fst (check_cache (hist_cache_key symbols start end_ timeframe) 24 self) = None →
  forced_source source = None →
  (2 ≤ fuel)%nat →
  let key := hist_cache_key symbols start end_ timeframe in
  let fetch name :=
    call_source self name
      (λ feed, feed_get_historical_data feed symbols start end_ timeframe) in
  let once := incr_cache_misses (snd (check_cache key 24 self)) in
  let twice := incr_cache_misses once in
  let run := get_historical_data fuel symbols start end_ timeframe source self in
  (source_available self "polygon" = true →
     (∀ data, fetch "polygon" = Return data →
        run = Some (Return data, cache_result key data once))
     ∧ (is_raise (fetch "polygon") = true → source_available self "yahoo" = true →
        ∀ data, fetch "yahoo" = Return data →
          run = Some (Return data, cache_result key data twice))
     ∧ (is_raise (fetch "polygon") = true → source_available self "yahoo" = false →
        run = Some (Return DataFrame_new, once)))
  ∧ (source_available self "polygon" = false → source_available self "yahoo" = true →
     ∀ data, fetch "yahoo" = Return data →
       run = Some (Return data, cache_result key data once))
  ∧ (source_available self "polygon" = false → source_available self "yahoo" = false →
     run = Some (Raise (RuntimeError "No data sources available"), once)).
Proof.
  intros Hmiss Hauto Hfuel key fetch once twice run. subst run fetch twice once.
  destruct fuel as [|[|fuel]]; [lia | lia |]. fold key in Hmiss.
  assert (Hselect : ∀ name, select_historical_source source self = Some name →
                    ∀ data, call_source self name
                              (λ feed, feed_get_historical_data feed symbols start end_
                                         timeframe) = Return data →
                    get_historical_data (S (S fuel)) symbols start end_ timeframe source self
                    = Some (Return data,
                            cache_result key data
                              (incr_cache_misses (snd (check_cache key 24 self))))).
  { intros name Hsel data Hanswer.
    by apply (get_historical_data_answer _ _ _ _ _ _ _ name). }
  split_and!.
  - intros Hpolygon.
    assert (Hsel : select_historical_source source self = Some "polygon").
    { unfold select_historical_source. by rewrite Hauto, Hpolygon. }
    split_and!.
    + intros data. by apply Hselect.
    + intros Hraise Hyahoo data Hanswer.
      rewrite (get_historical_data_failover _ _ _ _ _ _ _ "polygon");
        [| done | done | done | by rewrite Hyahoo].
      fold key.
      pose proof (check_cache_miss_again key 24 self Hmiss) as Hagain.
      destruct (check_cache_frame key 24 self) as (Hsrc & _).
      set (once := incr_cache_misses (snd (check_cache key 24 self))) in *.
      rewrite (get_historical_data_answer _ _ _ _ _ _ _ "yahoo" data).
      * fold key. by rewrite Hagain.
      * fold key. by rewrite Hagain.
      * done.
      * unfold call_source in *.
        change (sources once) with (sources (snd (check_cache key 24 self))).
        by rewrite Hsrc.
    + intros Hraise Hyahoo.
      rewrite (get_historical_data_last_resort _ _ _ _ _ _ _ "polygon");
        [done | done | done | done | by rewrite Hyahoo].
  - intros Hpolygon Hyahoo data. apply Hselect.
    unfold select_historical_source. by rewrite Hauto, Hpolygon, Hyahoo.
  - intros Hpolygon Hyahoo. cbn [get_historical_data]. fold key.
    destruct (check_cache_frame key 24 self) as (Hsrc & _).
    destruct (check_cache key 24 self) as [c s0]; simpl in *. subst c.
    unfold select_historical_source, source_available in *. simpl.
    by rewrite Hsrc, Hauto, Hpolygon, Hyahoo.
Qed.

(** Instance: without Polygon, Yahoo answers the SPY request. *)
Lemma historical_source_order_yahoo_only :
  get_historical_data 2 ["SPY"] jan02 jan31 "1Day" None new_manager
  = Some (Return spy_rows,
          cache_result (hist_cache_key ["SPY"] jan02 jan31 "1Day") spy_rows
            (incr_cache_misses
               (snd (check_cache (hist_cache_key ["SPY"] jan02 jan31 "1Day") 24
                       new_manager)))).
Proof.
  refine (proj1 (proj2 (historical_source_order 2 ["SPY"] jan02 jan31 "1Day" None
                          new_manager _ eq_refl _))
            eq_refl eq_refl spy_rows eq_refl).
  - vm_compute. reflexivity.
  - repeat constructor.
Defined.

(** With no source forced, [get_latest_prices] asks Alpaca, then Polygon,
    then Yahoo, each only after the one before it raised; but Yahoo is asked
    only after Polygon: when Alpaca raises and Polygon is not configured, the
    call returns an empty Series without asking Yahoo. With no source at all
    it raises RuntimeError. *)
Theorem latest_prices_source_order fuel symbols source self :
  forced_source source = None →
  (3 ≤ fuel)%nat →
  let fetch name :=
    call_source self name (λ feed, feed_get_latest_prices feed symbols) in
  let run := get_latest_prices fuel symbols source self in
  (source_available self "alpaca" = true →
     (∀ prices, fetch "alpaca" = Return prices → run = Some (Return prices))
     ∧ (is_raise (fetch "alpaca") = true → source_available self "polygon" = true →
        (∀ prices, fetch "polygon" = Return prices → run = Some (Return prices))
        ∧ (is_raise (fetch "polygon") = true → source_available self "yahoo" = true →
           ∀ prices, fetch "yahoo" = Return prices → run = Some (Return prices)))
     ∧ (is_raise (fetch "alpaca") = true → source_available self "polygon" = false →
        run = Some (Return Series_new)))
  ∧ (source_available self "alpaca" = false →
     source_available self "polygon" = false →
     source_available self "yahoo" = false →
     run = Some (Raise (RuntimeError "No data sources available"))).
Proof.
  intros Hauto Hfuel fetch run. subst run fetch.
  destruct fuel as [|[|[|fuel]]]; [lia..|].
  assert (Hraise : ∀ name, is_raise (call_source self name
                                       (λ feed, feed_get_latest_prices feed symbols)) = true →
                   ∃ e, call_source self name
                          (λ feed, feed_get_latest_prices feed symbols) = Raise e).
  { intros name. destruct (call_source self name _) as [prices|e]; [done | by exists e]. }
  split.
  - intros Halpaca.
    assert (Hstart : ∀ k, get_latest_prices (S k) symbols source self
              = match call_source self "alpaca"
                        (λ feed, feed_get_latest_prices feed symbols) with
                | Return prices => Some (Return prices)
                | Raise _ =>
                    if source_available self "polygon"
                    then get_latest_prices k symbols (Some "polygon") self
                    else Some (Return Series_new)
                end).
    { intros k. cbn [get_latest_prices]. unfold select_prices_source.
      rewrite Hauto, Halpaca.
      destruct (call_source self "alpaca" _); [done|].
      change (bool_decide ("alpaca" = "alpaca")) with true.
      change (bool_decide ("alpaca" = "polygon")) with false.
      cbn [andb]. by destruct (source_available self "polygon"). }
    assert (Hpolygon : ∀ k, get_latest_prices (S k) symbols (Some "polygon") self
              = match call_source self "polygon"
                        (λ feed, feed_get_latest_prices feed symbols) with
                | Return prices => Some (Return prices)
                | Raise _ =>
                    if source_available self "yahoo"
                    then get_latest_prices k symbols (Some "yahoo") self
                    else Some (Return Series_new)
                end).
    { intros k. cbn [get_latest_prices]. unfold select_prices_source, forced_source.
      change (bool_decide ("polygon" = "")) with false. cbv iota.
      destruct (call_source self "polygon" _); [done|].
      change (bool_decide ("polygon" = "alpaca")) with false.
      change (bool_decide ("polygon" = "polygon")) with true.
      cbn [andb]. by destruct (source_available self "yahoo"). }
    assert (Hyahoo : ∀ k prices,
              call_source self "yahoo" (λ feed, feed_get_latest_prices feed symbols)
                = Return prices →
              get_latest_prices (S k) symbols (Some "yahoo") self = Some (Return prices)).
    { intros k prices Hanswer. cbn [get_latest_prices].
      unfold select_prices_source, forced_source.
      change (bool_decide ("yahoo" = "")) with false. cbv iota.
      by rewrite Hanswer. }
    split_and!.
    + intros prices Hanswer. by rewrite Hstart, Hanswer.
    + intros [e He]%Hraise Hpoly. split.
      * intros prices Hanswer. by rewrite Hstart, He, Hpoly, Hpolygon, Hanswer.
      * intros [e' He']%Hraise Hy prices Hanswer.
        rewrite Hstart, He, Hpoly, Hpolygon, He', Hy. by apply Hyahoo.
    + intros [e He]%Hraise Hpoly. by rewrite Hstart, He, Hpoly.
  - intros Halpaca Hpoly Hy. cbn [get_latest_prices]. unfold select_prices_source.
    by rewrite Hauto, Halpaca, Hpoly, Hy.
Qed.

(** Instance: Alpaca raises, Polygon is not configured, Yahoo would answer:
    the prices come back empty. *)
Lemma latest_prices_source_order_skips_yahoo :
  get_latest_prices 3 ["SPY"] None alpaca_down_manager = Some (Return Series_new).
Proof.
  refine (proj2 (proj2 (proj1 (latest_prices_source_order 3 ["SPY"] None
                                 alpaca_down_manager eq_refl _) eq_refl))
            eq_refl eq_refl).
  repeat constructor.
Defined.

(** Instance of [get_latest_prices_all_fail]: both configured sources raise. *)
Lemma get_latest_prices_all_fail_both :
  get_latest_prices 3 ["SPY"] None all_fail_manager = Some (Return Series_new).
Proof.
  apply (get_latest_prices_all_fail 3 ["SPY"] None all_fail_manager).
  - repeat constructor.
  - by eexists.
  - intros name. unfold call_source, all_fail_manager, mk_manager; simpl.
    rewrite !lookup_insert. repeat case_decide; reflexivity.
Defined.

(** *** Options chains and crypto data *)

(** With Polygon configured, an options-chain request that misses the cache
    never raises: when Polygon's call raises it returns an empty DataFrame,
    counts the miss and writes nothing; when Polygon answers it returns the
    chain, and, caching on, the directory in place and the chain not empty,
    the same request made again up to 298.8 seconds later is a hit served
    from the cache. *)
Theorem options_chain_after_miss str_float underlying_symbol expiration_date
    strike_price option_type self polygon :
  sources self !! "polygon" = Some (Some polygon) →
  let key :=
    options_cache_key str_float underlying_symbol expiration_date strike_price
      option_type in
  fst (check_cache key (83 # 1000) self) = None →
  let missed := incr_cache_misses (snd (check_cache key (83 # 1000) self)) in
  let run := get_options_chain str_float underlying_symbol expiration_date
               strike_price option_type in
  (is_raise (feed_get_options_chain polygon underlying_symbol expiration_date
               strike_price option_type) = true →
     run self = (Return DataFrame_new, missed))
  ∧ (∀ chain,
       feed_get_options_chain polygon underlying_symbol expiration_date
         strike_price option_type = Return chain →
       run self = (Return chain, cache_result key chain missed)
       ∧ (enable_caching self = true → is_Some (cache_dir self) →
          df_empty chain = false →
          ∀ elapsed, elapsed ≤ 298800000 →
            run (advance elapsed (cache_result key chain missed))
            = (Return chain,
               incr_cache_hits (advance elapsed (cache_result key chain missed))))).
Proof.
  intros Hpolygon key Hmiss missed run. subst run missed.
  assert (Havailable : ∀ m, sources m = sources self → source_available m "polygon" = true).
  { intros m Hm. unfold source_available. by rewrite Hm, Hpolygon. }
  destruct (check_cache_frame key (83 # 1000) self) as (Hsrc & Hon0 & _ & _ & Hnow0).
  assert (Hfirst : get_options_chain str_float underlying_symbol expiration_date
                     strike_price option_type self
                   = match feed_get_options_chain polygon underlying_symbol
                             expiration_date strike_price option_type with
                     | Return chain =>
                         (Return chain,
                          cache_result key chain
                            (incr_cache_misses (snd (check_cache key (83 # 1000) self))))
                     | Raise _ =>
                         (Return DataFrame_new,
                          incr_cache_misses (snd (check_cache key (83 # 1000) self)))
                     end).
  { unfold get_options_chain. rewrite (Havailable self eq_refl). cbn [negb].
    fold key. destruct (check_cache key (83 # 1000) self) as [c s0]; simpl in *.
    subst c. unfold call_source; simpl. by rewrite Hsrc, Hpolygon. }
  split.
  - intros Hraise. rewrite Hfirst.
    by destruct (feed_get_options_chain polygon _ _ _ _).
  - intros chain Hanswer. rewrite Hfirst, Hanswer. split; [done|].
    intros Hon [files Hdir] Hfull elapsed Helapsed.
    assert (Hdir0 : is_Some (cache_dir (snd (check_cache key (83 # 1000) self)))).
    { destruct (check_cache_dir key (83 # 1000) self)
        as [-> | (fs & d & ts & _ & _ & _ & _ & ->)]; by eauto. }
    destruct Hdir0 as [files0 Hdir0].
    set (missed := incr_cache_misses (snd (check_cache key (83 # 1000) self))).
    assert (Hsaved : cache_result key chain missed
                     = set_cache_dir
                         (Some (<[cache_path key := Pickled chain (now self)]> files0))
                         missed).
    { unfold cache_result, _save_to_cache, missed; simpl.
      by rewrite Hon0, Hon, Hfull, Hdir0, Hnow0. }
    rewrite Hsaved. unfold get_options_chain.
    rewrite Havailable by (simpl; exact Hsrc). cbn [negb]. fold key.
    unfold check_cache, _load_from_cache; simpl.
    rewrite Hon0, Hon, lookup_insert_eq.
    assert (Hfresh : Qle_bool (age_hours (now (snd (check_cache key (83 # 1000) self))
                                          + elapsed) (now self)) (83 # 1000) = true).
    { apply fresh_iff_microseconds. rewrite Hnow0. lia. }
    by rewrite Hfresh.
Qed.

(** Instance: Polygon serves a chain; four minutes later it comes from the
    cache. *)
Lemma options_chain_after_miss_aapl :
  get_options_chain str_float_stub "AAPL" None None (Some "call")
    (advance 240000000
       (cache_result (options_cache_key str_float_stub "AAPL" None None (Some "call"))
          aapl_chain
          (incr_cache_misses
             (snd (check_cache
                     (options_cache_key str_float_stub "AAPL" None None (Some "call"))
                     (83 # 1000) options_manager)))))
  = (Return aapl_chain,
     incr_cache_hits
       (advance 240000000
          (cache_result (options_cache_key str_float_stub "AAPL" None None (Some "call"))
             aapl_chain
             (incr_cache_misses
                (snd (check_cache
                        (options_cache_key str_float_stub "AAPL" None None (Some "call"))
                        (83 # 1000) options_manager)))))).
Proof.
  refine (proj2 (proj2 (options_chain_after_miss str_float_stub "AAPL" None None
                          (Some "call") options_manager options_feed eq_refl _)
                   aapl_chain eq_refl)
            eq_refl _ eq_refl 240000000 _).
  - vm_compute. reflexivity.
  - by eexists.
  - vm_compute. discriminate.
Defined.

(** [get_crypto_data] without a Polygon feed raises RuntimeError and changes
    nothing; with one, a request that misses the cache never raises: when
    Polygon's call raises it returns an empty DataFrame, counts the miss and
    writes no file. A fresh record, at most one hour old, is served without
    calling Polygon. *)
Theorem crypto_data_outcomes polygon_get_crypto_data from_currency to_currency
    start end_ timeframe self :
  let key := crypto_cache_key from_currency to_currency start end_ timeframe in
  let run := get_crypto_data polygon_get_crypto_data from_currency to_currency
               start end_ timeframe self in
  (source_available self "polygon" = false →
     run = (Raise (RuntimeError "Polygon is required for crypto data"), self))
  ∧ (source_available self "polygon" = true →
     (fst (check_cache key 1 self) = None →
      is_raise (polygon_get_crypto_data from_currency to_currency start end_ timeframe)
        = true →
      run = (Return DataFrame_new, incr_cache_misses (snd (check_cache key 1 self)))
      ∧ ∀ file_name file,
          cache_entries (snd run) !! file_name = Some file →
          cache_entries self !! file_name = Some file)
     ∧ (∀ files data timestamp,
          enable_caching self = true → cache_dir self = Some files →
          files !! cache_path key = Some (Pickled data timestamp) →
          now self - timestamp ≤ 3600000000 →
          run = (Return data, incr_cache_hits self))).
Proof.
  intros key run. subst run. unfold get_crypto_data. fold key. split.
  - by intros ->.
  - intros ->. cbn [negb]. split.
    + intros Hmiss Hraise.
      destruct (check_cache_entries key 1 self) as [Hothers Hown].
      destruct (check_cache key 1 self) as [c s0]; simpl in *. subst c.
      destruct (polygon_get_crypto_data _ _ _ _ _) as [data|e]; [done|].
      split; [done|]. simpl. intros file_name file Hfile.
      change (cache_entries (incr_cache_misses s0)) with (cache_entries s0) in Hfile.
      destruct (decide (file_name = cache_path key)) as [->|Hne].
      * destruct Hown as [Hsame | Hgone]; [by rewrite <- Hsame | congruence].
      * by rewrite <- Hothers.
    + intros files data timestamp Hon Hdir Hfile Hage.
      unfold check_cache, _load_from_cache. rewrite Hon, Hdir, Hfile.
      assert (Hfresh : Qle_bool (age_hours (now self) timestamp) 1 = true).
      { apply (fresh_iff_microseconds _ _ 1 1). lia. }
      by rewrite Hfresh.
Qed.

(** Instance: no Polygon key. *)
Lemma crypto_data_outcomes_no_key :
  get_crypto_data (λ _ _ _ _ _, Return spy_rows) "BTC" "USD" jan02 jan31 "1Day"
    no_polygon_manager
  = (Raise (RuntimeError "Polygon is required for crypto data"), no_polygon_manager).
Proof.
  exact (proj1 (crypto_data_outcomes (λ _ _ _ _ _, Return spy_rows) "BTC" "USD"
                  jan02 jan31 "1Day" no_polygon_manager) eq_refl).
Defined.

End ManagerCacheMore.
